(** * PR-agent MCP server: a shallow embedding of [starter/server.py]

    The server exposes three tools: [analyze_file_changes] (four git
    queries shaped into a change report), [get_pr_templates] (the fixed
    template table read from the template directory) and
    [suggest_template] (a change category mapped to one template).

    Python values are modelled as the code has them: a [str] is a sequence
    of Unicode code points, an [int] is an integer of [Z], a [dict] is an
    insertion-ordered association list, and the documents handed to
    [json.dumps] are values of [Json.json].  The git executable, the host
    context, the template files and [str.lower] are parameters. *)

From Stdlib Require Import List ZArith NArith Lia Bool String Ascii.
From Stdlib Require Decimal DecimalString DecimalFacts DecimalPos DecimalN.
Import ListNotations.
Local Open Scope list_scope.

(** ** Python strings *)

Module Py.

(** A [str] is a list of code points. *)
Definition str := list N.

(** An ASCII literal of the source. *)
Definition lit (s : string) : str :=
  map N_of_ascii (list_ascii_of_string s).

Definition LF : N := 10.
Definition CR : N := 13.
Definition SPACE : N := 32.
Definition DQUOTE : N := 34.
Definition SQUOTE : N := 39.
Definition BACKSLASH : N := 92.

Definition eqb (a b : str) : bool :=
  if list_eq_dec N.eq_dec a b then true else false.

(** [len(x)] *)
Definition len {A} (l : list A) : Z := Z.of_nat (List.length l).

(** [sep.join(parts)] *)
Fixpoint join (sep : str) (parts : list str) : str :=
  match parts with
  | [] => []
  | [p] => p
  | p :: rest => p ++ sep ++ join sep rest
  end.

(** [xs[:stop]]: a negative [stop] counts from the end. *)
Definition slice_to {A} (xs : list A) (stop : Z) : list A :=
  if (stop <? 0)%Z
  then firstn (Z.to_nat (Z.max 0 (len xs + stop))) xs
  else firstn (Z.to_nat stop) xs.

(** The line boundaries of [str.splitlines]: LF, VT, FF, CR, FS, GS, RS,
    NEL, LINE SEPARATOR, PARAGRAPH SEPARATOR. *)
Definition is_linebreak (c : N) : bool :=
  ((10 <=? c) && (c <=? 13) || (28 <=? c) && (c <=? 30) ||
   (c =? 133) || (c =? 8232) || (c =? 8233))%N.

(** [s.splitlines()] with [acc] the line read so far: boundaries are
    dropped, CR LF is one boundary, and no empty last line is produced. *)
Fixpoint splitlines_from (acc s : str) : list str :=
  match s with
  | [] => match acc with [] => [] | _ => [acc] end
  | c :: rest =>
      if is_linebreak c then
        match rest with
        | d :: rest' =>
            if ((c =? CR) && (d =? LF))%N
            then acc :: splitlines_from [] rest'
            else acc :: splitlines_from [] rest
        | [] => acc :: splitlines_from [] rest
        end
      else splitlines_from (acc ++ [c]) rest
  end.

Definition splitlines (s : str) : list str := splitlines_from [] s.

(** The white space of [str.strip]: the code points for which
    [str.isspace] holds. *)
Definition is_space (c : N) : bool :=
  ((9 <=? c) && (c <=? 13) || (28 <=? c) && (c <=? 32) ||
   (c =? 133) || (c =? 160) || (c =? 5760) ||
   (8192 <=? c) && (c <=? 8202) || (c =? 8232) || (c =? 8233) ||
   (c =? 8239) || (c =? 8287) || (c =? 12288))%N.

Fixpoint lstrip (s : str) : str :=
  match s with
  | c :: rest => if is_space c then lstrip rest else s
  | [] => []
  end.

Definition rstrip (s : str) : str := rev (lstrip (rev s)).

(** [s.strip()] *)
Definition strip (s : str) : str := rstrip (lstrip s).

(** [repr] of an [int], in decimal. *)
Definition int_repr (n : Z) : str :=
  lit (DecimalString.NilZero.string_of_int (Z.to_int n)).

(** [needle in haystack] for strings. *)
Definition substring (needle haystack : str) : Prop :=
  exists before after, haystack = before ++ needle ++ after.

(** The lower-case form of an ASCII string; [str.lower] agrees with it on
    ASCII input. *)
Definition ascii_lower_char (c : N) : N :=
  if ((65 <=? c) && (c <=? 90))%N then (c + 32)%N else c.

Definition ascii_lower (s : str) : str := map ascii_lower_char s.

Definition is_ascii (s : str) : Prop := Forall (fun c => (c < 128)%N) s.

End Py.

Notation "'$' s" := (Py.lit s%string) (at level 1, format "'$' s").


(** ** JSON documents and [json.dumps] *)

Module Json.

(** The values the tools serialise; a [dict] keeps its insertion order. *)
#[local] Unset Elimination Schemes.
Inductive json : Type :=
| JNull
| JBool (b : bool)
| JInt (n : Z)
| JString (s : Py.str)
| JArray (items : list json)
| JObject (members : list (Py.str * json)).
#[local] Set Elimination Schemes.

(** [d.get(key)] on the members of a dict. *)
Fixpoint dict_get (key : Py.str) (members : list (Py.str * json))
  : option json :=
  match members with
  | [] => None
  | (k, v) :: rest => if Py.eqb k key then Some v else dict_get key rest
  end.

(** [v[key]] when [v] is a dict that has [key]. *)
Definition field (key : Py.str) (v : json) : option json :=
  match v with
  | JObject members => dict_get key members
  | _ => None
  end.

Definition keys (v : json) : list Py.str :=
  match v with
  | JObject members => map fst members
  | _ => []
  end.

(** Lower-case hexadecimal, four digits: the format [{0:04x}]. *)
Definition hex_digit (d : N) : N :=
  if (d <? 10)%N then (48 + d)%N else (87 + d)%N.

Definition hex4 (n : N) : Py.str :=
  [hex_digit ((n / 4096) mod 16); hex_digit ((n / 256) mod 16);
   hex_digit ((n / 16) mod 16); hex_digit (n mod 16)]%N.

Definition u_escape (n : N) : Py.str := Py.BACKSLASH :: 117%N :: hex4 n.

(** The replacement of one code point in [encode_basestring_ascii]. *)
Definition escape_char (c : N) : Py.str :=
  if (c =? Py.DQUOTE)%N then [Py.BACKSLASH; Py.DQUOTE]
  else if (c =? Py.BACKSLASH)%N then [Py.BACKSLASH; Py.BACKSLASH]
  else if (c =? 8)%N then [Py.BACKSLASH; 98%N]
  else if (c =? 12)%N then [Py.BACKSLASH; 102%N]
  else if (c =? 10)%N then [Py.BACKSLASH; 110%N]
  else if (c =? 13)%N then [Py.BACKSLASH; 114%N]
  else if (c =? 9)%N then [Py.BACKSLASH; 116%N]
  else if ((32 <=? c) && (c <=? 126))%N then [c]
  else if (c <? 65536)%N then u_escape c
  else
    let n := (c - 65536)%N in
    u_escape (N.lor 55296 (N.land (N.shiftr n 10) 1023)) ++
    u_escape (N.lor 56320 (N.land n 1023)).

(** A string as [json.dumps] writes it with [ensure_ascii=True]. *)
Definition encode_basestring_ascii (s : Py.str) : Py.str :=
  Py.DQUOTE :: flat_map escape_char s ++ [Py.DQUOTE].

(** The line break and indentation written before an item at nesting
    depth [level]; nothing when [indent] is [None]. *)
Definition newline_indent (indent : option nat) (level : nat) : Py.str :=
  match indent with
  | None => []
  | Some n => Py.LF :: repeat Py.SPACE (n * level)
  end.

Definition item_separator (indent : option nat) : Py.str :=
  match indent with
  | None => $", "
  | Some _ => $","
  end.

Definition key_separator : Py.str := $": ".

(** The encoder of [json.dumps] at nesting depth [level]. *)
Fixpoint encode (indent : option nat) (level : nat) (v : json) : Py.str :=
  match v with
  | JNull => $"null"
  | JBool true => $"true"
  | JBool false => $"false"
  | JInt n => Py.int_repr n
  | JString s => encode_basestring_ascii s
  | JArray [] => $"[]"
  | JArray items =>
      $"[" ++ newline_indent indent (S level) ++
      Py.join (item_separator indent ++ newline_indent indent (S level))
              (map (encode indent (S level)) items) ++
      newline_indent indent level ++ $"]"
  | JObject [] => $"{}"
  | JObject members =>
      $"{" ++ newline_indent indent (S level) ++
      Py.join (item_separator indent ++ newline_indent indent (S level))
              (map (fun kv => encode_basestring_ascii (fst kv) ++
                              key_separator ++
                              encode indent (S level) (snd kv)) members) ++
      newline_indent indent level ++ $"}"
  end.

(** [json.dumps(v)] and [json.dumps(v, indent=n)]. *)
Definition dumps (indent : option nat) (v : json) : Py.str :=
  encode indent 0 v.

(** *** [json.loads]

    The scanner of the [json] module for the values above.  A number with
    a fraction or an exponent, [NaN] and [Infinity] are Python floats and
    have no value in [json]: the scanner gives [None] on them, as it does
    where [json.loads] raises [JSONDecodeError]. *)

Definition is_ws (c : N) : bool :=
  ((c =? 32) || (c =? 9) || (c =? 10) || (c =? 13))%N.

Fixpoint skip_ws (s : Py.str) : Py.str :=
  match s with
  | c :: rest => if is_ws c then skip_ws rest else s
  | [] => []
  end.

Definition hex_value (c : N) : option N :=
  if ((48 <=? c) && (c <=? 57))%N then Some (c - 48)%N
  else if ((97 <=? c) && (c <=? 102))%N then Some (c - 87)%N
  else if ((65 <=? c) && (c <=? 70))%N then Some (c - 55)%N
  else None.

Definition decode_hex4 (a b c d : N) : option N :=
  match hex_value a, hex_value b, hex_value c, hex_value d with
  | Some x, Some y, Some z, Some w => Some (((x * 16 + y) * 16 + z) * 16 + w)%N
  | _, _, _, _ => None
  end.

Definition is_high_surrogate (c : N) : bool :=
  ((55296 <=? c) && (c <=? 56319))%N.
Definition is_low_surrogate (c : N) : bool :=
  ((56320 <=? c) && (c <=? 57343))%N.

Definition join_surrogates (hi lo : N) : N :=
  (65536 + ((hi - 55296) * 1024 + (lo - 56320)))%N.

(** The character a one-letter escape stands for. *)
Definition unescape (e : N) : option N :=
  if (e =? Py.DQUOTE)%N then Some Py.DQUOTE
  else if (e =? Py.BACKSLASH)%N then Some Py.BACKSLASH
  else if (e =? 47)%N then Some 47%N
  else if (e =? 98)%N then Some 8%N
  else if (e =? 102)%N then Some 12%N
  else if (e =? 110)%N then Some 10%N
  else if (e =? 114)%N then Some 13%N
  else if (e =? 116)%N then Some 9%N
  else None.

(** [scanstring] after the opening quote: the decoded string read so far
    is [acc]; the result is the string and the input after the closing
    quote.  A high surrogate escape followed by a low surrogate escape is
    one code point. *)
Fixpoint scanstring (s acc : Py.str) : option (Py.str * Py.str) :=
  match s with
  | [] => None
  | c :: rest =>
      if (c =? Py.DQUOTE)%N then Some (acc, rest)
      else if (c =? Py.BACKSLASH)%N then
        match rest with
        | [] => None
        | e :: rest1 =>
            if (e =? 117)%N then
              match rest1 with
              | h1 :: h2 :: h3 :: h4 :: rest2 =>
                  match decode_hex4 h1 h2 h3 h4 with
                  | None => None
                  | Some uni =>
                      if is_high_surrogate uni then
                        match rest2 with
                        | b :: u :: g1 :: g2 :: g3 :: g4 :: rest3 =>
                            if ((b =? Py.BACKSLASH) && (u =? 117))%N then
                              match decode_hex4 g1 g2 g3 g4 with
                              | None => None
                              | Some uni2 =>
                                  if is_low_surrogate uni2
                                  then scanstring rest3
                                         (acc ++ [join_surrogates uni uni2])
                                  else scanstring rest2 (acc ++ [uni])
                              end
                            else scanstring rest2 (acc ++ [uni])
                        | _ => scanstring rest2 (acc ++ [uni])
                        end
                      else scanstring rest2 (acc ++ [uni])
                  end
              | _ => None
              end
            else
              match unescape e with
              | Some ch => scanstring rest1 (acc ++ [ch])
              | None => None
              end
        end
      else if (c <? 32)%N then None
      else scanstring rest (acc ++ [c])
  end.

Definition is_digit (c : N) : bool := ((48 <=? c) && (c <=? 57))%N.

(** The decimal digits at the head of [s], read onto [acc]. *)
Fixpoint scan_digits (s : Py.str) (acc : Z) : Z * Py.str :=
  match s with
  | c :: rest =>
      if is_digit c then scan_digits rest (10 * acc + Z.of_N (c - 48))%Z
      else (acc, s)
  | [] => (acc, [])
  end.

(** What follows an integer part makes the number a float. *)
Definition float_follows (s : Py.str) : bool :=
  match s with
  | c :: d :: rest =>
      if (c =? 46)%N then is_digit d
      else if ((c =? 101) || (c =? 69))%N then
        is_digit d ||
        (((d =? 43) || (d =? 45))%N &&
         match rest with x :: _ => is_digit x | [] => false end)
      else false
  | _ => false
  end.

(** The integer part [0|[1-9][0-9]*] of a number. *)
Definition scan_natural (s : Py.str) : option (Z * Py.str) :=
  match s with
  | c :: rest =>
      if (c =? 48)%N then Some (0%Z, rest)
      else if is_digit c then Some (scan_digits s 0%Z)
      else None
  | [] => None
  end.

Definition scan_number (s : Py.str) : option (Z * Py.str) :=
  let signed :=
    match s with
    | c :: rest =>
        if (c =? 45)%N
        then match scan_natural rest with
             | Some (n, r) => Some ((- n)%Z, r)
             | None => None
             end
        else scan_natural s
    | [] => None
    end in
  match signed with
  | Some (n, r) => if float_follows r then None else Some (n, r)
  | None => None
  end.

(** [s] starts with the word [w]: the rest of [s]. *)
Fixpoint after_prefix (w s : Py.str) : option Py.str :=
  match w, s with
  | [], _ => Some s
  | a :: w', b :: s' => if (a =? b)%N then after_prefix w' s' else None
  | _ :: _, [] => None
  end.

(** A key stored into a dict under construction: a key met again keeps its
    place and takes the new value. *)
Fixpoint dict_set (key : Py.str) (v : json) (members : list (Py.str * json))
  : list (Py.str * json) :=
  match members with
  | [] => [(key, v)]
  | (k, w) :: rest =>
      if Py.eqb k key then (k, v) :: rest else (k, w) :: dict_set key v rest
  end.

Section Containers.

(** The scanner for one value, [scan_once] one level down. *)
Variable scan : Py.str -> option (json * Py.str).

(** The items of an array after the opening bracket and white space,
    the first of them still to be read. *)
Fixpoint scan_items (fuel : nat) (s : Py.str) (acc : list json)
  : option (json * Py.str) :=
  match fuel with
  | O => None
  | S fuel' =>
      match scan s with
      | None => None
      | Some (v, s1) =>
          match skip_ws s1 with
          | c :: s2 =>
              if (c =? 93)%N then Some (JArray (acc ++ [v]), s2)
              else if (c =? 44)%N
              then scan_items fuel' (skip_ws s2) (acc ++ [v])
              else None
          | [] => None
          end
      end
  end.

(** The members of an object, [s] at the opening quote of a key. *)
Fixpoint scan_members (fuel : nat) (s : Py.str) (acc : list (Py.str * json))
  : option (json * Py.str) :=
  match fuel with
  | O => None
  | S fuel' =>
      match s with
      | q :: s0 =>
          if (q =? Py.DQUOTE)%N then
            match scanstring s0 [] with
            | None => None
            | Some (key, s1) =>
                match skip_ws s1 with
                | c :: s2 =>
                    if (c =? 58)%N then
                      match scan (skip_ws s2) with
                      | None => None
                      | Some (v, s3) =>
                          match skip_ws s3 with
                          | d :: s4 =>
                              if (d =? 125)%N
                              then Some (JObject (dict_set key v acc), s4)
                              else if (d =? 44)%N
                              then scan_members fuel' (skip_ws s4)
                                                (dict_set key v acc)
                              else None
                          | [] => None
                          end
                      end
                    else None
                | [] => None
                end
            end
          else None
      | [] => None
      end
  end.

End Containers.

(** [scan_once]: one value at the head of [s] and the input after it. *)
Fixpoint scan_once (fuel : nat) (s : Py.str) : option (json * Py.str) :=
  match fuel with
  | O => None
  | S fuel' =>
      match s with
      | [] => None
      | c :: rest =>
          if (c =? Py.DQUOTE)%N then
            match scanstring rest [] with
            | Some (str, r) => Some (JString str, r)
            | None => None
            end
          else if (c =? 123)%N then
            match skip_ws rest with
            | d :: r =>
                if (d =? 125)%N then Some (JObject [], r)
                else scan_members (scan_once fuel') fuel' (d :: r) []
            | [] => None
            end
          else if (c =? 91)%N then
            match skip_ws rest with
            | d :: r =>
                if (d =? 93)%N then Some (JArray [], r)
                else scan_items (scan_once fuel') fuel' (d :: r) []
            | [] => None
            end
          else
            match after_prefix $"null" s with
            | Some r => Some (JNull, r)
            | None =>
            match after_prefix $"true" s with
            | Some r => Some (JBool true, r)
            | None =>
            match after_prefix $"false" s with
            | Some r => Some (JBool false, r)
            | None =>
            match scan_number s with
            | Some (n, r) => Some (JInt n, r)
            | None => None
            end end end end
      end
  end.

(** [json.loads(s)]: one value between optional white space, and nothing
    after it.  The fuel is the length of the input, which bounds both the
    nesting depth and the number of items of any document in it. *)
Definition loads (s : Py.str) : option json :=
  match scan_once (S (List.length s)) (skip_ws s) with
  | Some (v, rest) =>
      match skip_ws rest with
      | [] => Some v
      | _ :: _ => None
      end
  | None => None
  end.

End Json.

Import Json.

(** ** Exceptions, processes and the command trace *)

(** The exceptions the tools meet: [subprocess.CalledProcessError] and any
    other [Exception], the latter by its message [str(e)]. *)
Inductive exn : Type :=
| CalledProcessError (returncode : Z) (stderr : Py.str)
| Exception (message : Py.str).

Inductive result (A : Type) : Type :=
| Ok (a : A)
| Raise (e : exn).
Arguments Ok {A} a.
Arguments Raise {A} e.

Definition result_bind {A B} (r : result A) (k : A -> result B) : result B :=
  match r with
  | Ok a => k a
  | Raise e => Raise e
  end.

(** One process started by [subprocess.run]. *)
Record command : Type := Command { argv : list Py.str; cwd : Py.str }.

(** What the operating system does with a command: the process runs to
    its end, or starting it or decoding its output raises. *)
Inductive outcome : Type :=
| Exited (status : Z) (out err : Py.str)
| Failed (message : Py.str).

Record CompletedProcess : Type :=
  { returncode : Z; stdout : Py.str; stderr : Py.str }.

(** A computation that starts processes: the commands started so far are
    threaded through, and an exception ends it. *)
Definition proc (A : Type) : Type := list command -> result A * list command.

Definition ret {A} (a : A) : proc A := fun log => (Ok a, log).

Definition raise {A} (e : exn) : proc A := fun log => (Raise e, log).

Definition bind {A B} (m : proc A) (k : A -> proc B) : proc B :=
  fun log =>
    match m log with
    | (Ok a, log') => k a log'
    | (Raise e, log') => (Raise e, log')
    end.

(** [try: body except ...: handler] *)
Definition try_except {A} (body : proc A) (handler : exn -> proc A) : proc A :=
  fun log =>
    match body log with
    | (Ok a, log') => (Ok a, log')
    | (Raise e, log') => handler e log'
    end.

Declare Scope proc_scope.
Delimit Scope proc_scope with proc.
Notation "x <- m ;; k" := (bind m (fun x => k))
  (at level 61, m at next level, right associativity) : proc_scope.
Notation "x <-? m ;; k" := (result_bind m (fun x => k))
  (at level 61, m at next level, right associativity).

(** The body of a [try] block either returns from the function or falls
    through to the code after the block with the local variables. *)
Inductive flow (A : Type) : Type :=
| Return (value : Py.str)
| Continue (locals : A).
Arguments Return {A} value.
Arguments Continue {A} locals.

(** ** The fixed tables *)

Definition DEFAULT_TEMPLATES : list (Py.str * Py.str) :=
  [ ($"bug.md", $"Bug Fix");
    ($"feature.md", $"Feature");
    ($"docs.md", $"Documentation");
    ($"refactor.md", $"Refactor");
    ($"test.md", $"Test");
    ($"performance.md", $"Performance");
    ($"security.md", $"Security") ].

Definition TYPE_MAPPING : list (Py.str * Py.str) :=
  [ ($"bug", $"bug.md");
    ($"fix", $"bug.md");
    ($"feature", $"feature.md");
    ($"enhancement", $"feature.md");
    ($"docs", $"docs.md");
    ($"documentation", $"docs.md");
    ($"refactor", $"refactor.md");
    ($"cleanup", $"refactor.md");
    ($"test", $"test.md");
    ($"testing", $"test.md");
    ($"performance", $"performance.md");
    ($"optimization", $"performance.md");
    ($"security", $"security.md") ].

(** [table.get(key, default)] *)
Fixpoint get_default (table : list (Py.str * Py.str)) (key default : Py.str)
  : Py.str :=
  match table with
  | [] => default
  | (k, v) :: rest => if Py.eqb k key then v else get_default rest key default
  end.

(** The locals of [analyze_file_changes] that outlive its [try] block. *)
Record locals : Type :=
  { diff_output : Py.str;
    diff_lines : list Py.str;
    truncated : option Py.str;
    stats_result : CompletedProcess;
    changed_files : list Py.str;
    commits_result : CompletedProcess }.

(** The dict [result] of [analyze_file_changes]. *)
Definition change_report (base_branch : Py.str) (include_diff : bool)
    (truncated_value : Py.str) (l : locals) : json :=
  JObject
    [ ($"base_branch", JString base_branch);
      ($"files_changed", JArray (map JString (changed_files l)));
      ($"statistics", JString (Py.strip (stdout (stats_result l))));
      ($"commits", JString (Py.strip (stdout (commits_result l))));
      ($"diff", JString (if include_diff then Py.strip (diff_output l)
                         else $"Use include_diff=True to see the diff."));
      ($"truncated", JString truncated_value);
      ($"total_diff_lines", JInt (if include_diff then Py.len (diff_lines l)
                                  else 0%Z)) ].

(** ** The tools *)

Section Tools.

(** The git executable and the file system, as the operating system
    answers a command. *)
Variable run_process : command -> outcome.

(** The path of the first root the host declares; [None] when the
    context, the session or the list of roots raises or the path is
    absent. *)
Variable context_root : option Py.str.

(** [os.getcwd()] *)
Variable getcwd : Py.str.

(** [(TEMPLATES_DIR / filename).read_text()], by file name. *)
Variable read_text : Py.str -> result Py.str.

(** [str.lower] *)
Variable lower : Py.str -> Py.str.

(** [subprocess.run(args, cwd=cwd, capture_output=True, text=True)]:
    a nonzero exit status raises only when [check] is set. *)
Definition subprocess_run (check : bool) (args : list Py.str) (dir : Py.str)
  : proc CompletedProcess :=
  fun log =>
    let c := Command args dir in
    match run_process c with
    | Failed message => (Raise (Exception message), log ++ [c])
    | Exited status out err =>
        if check && negb (status =? 0)%Z
        then (Raise (CalledProcessError status err), log ++ [c])
        else (Ok {| returncode := status; stdout := out; stderr := err |},
              log ++ [c])
    end.

(** [a or b] for an optional string: [None] and the empty string are
    false. *)
Definition or_else (a : option Py.str) (b : Py.str) : Py.str :=
  match a with
  | Some (c :: s) => c :: s
  | _ => b
  end.

(** Lines 65 to 73: the working directory. *)
Definition resolve_working_dir (working_dir : option Py.str) : Py.str :=
  match working_dir with
  | Some dir => dir
  | None => or_else context_root getcwd
  end.

(** Lines 74 to 115: the [try] block. *)
Definition analyze_try (base_branch : Py.str) (max_diff_lines : Z)
    (working_dir : Py.str) : proc (flow locals) :=
  (result <- subprocess_run false
               [$"git"; $"diff"; base_branch ++ $"..HEAD"] working_dir ;;
   let diff_output := stdout result in
   match diff_output with
   | [] =>
       ret (Return (dumps None
              (JObject [($"message", JString $"No changes detected.")])))
   | _ :: _ =>
       let diff_lines := Py.splitlines diff_output in
       let truncated :=
         if (Py.len diff_lines >? max_diff_lines)%Z
         then Some (Py.join [Py.LF] (Py.slice_to diff_lines max_diff_lines)
                    ++ Py.LF :: $"... (truncated)")
         else None in
       stats_result <- subprocess_run false
         [$"git"; $"diff"; $"--stat"; base_branch ++ $"..HEAD"] working_dir ;;
       file_status <- subprocess_run false
         [$"git"; $"diff"; $"--name-only"; base_branch ++ $"...HEAD"]
         working_dir ;;
       let changed_files := Py.splitlines (Py.strip (stdout file_status)) in
       commits_result <- subprocess_run false
         [$"git"; $"log"; $"--oneline"; base_branch ++ $"..HEAD"] working_dir ;;
       ret (Continue
              {| diff_output := diff_output;
                 diff_lines := diff_lines;
                 truncated := truncated;
                 stats_result := stats_result;
                 changed_files := changed_files;
                 commits_result := commits_result |})
   end)%proc.

(** Lines 117 to 120: the two handlers. *)
Definition analyze_except (e : exn) : proc (flow locals) :=
  match e with
  | CalledProcessError _ err =>
      ret (Return (dumps None
             (JObject [($"error", JString ($"Git error: " ++ err))])))
  | Exception message =>
      ret (Return (dumps None (JObject [($"error", JString message)])))
  end.

(** [analyze_file_changes]: the text the tool returns and the commands
    it started. *)
Definition analyze_file_changes (base_branch : Py.str) (include_diff : bool)
    (max_diff_lines : Z) (working_dir : option Py.str) : proc Py.str :=
  (let working_dir := resolve_working_dir working_dir in
   r <- try_except (analyze_try base_branch max_diff_lines working_dir)
                   analyze_except ;;
   match r with
   | Return value => ret value
   | Continue l =>
       truncated_value <-
         (if (Py.len (diff_lines l) >? max_diff_lines)%Z
          then match truncated l with
               | Some t => ret t
               | None => raise (Exception $"UnboundLocalError")
               end
          else ret (Py.strip (diff_output l))) ;;
       ret (dumps (Some 2)
              (change_report base_branch include_diff truncated_value l))
   end)%proc.

(** The record of one template. *)
Definition template_record (filename template_type content : Py.str) : json :=
  JObject [ ($"filename", JString filename);
            ($"type", JString template_type);
            ($"content", JString content) ].

(** The list comprehension of [get_pr_templates]: the first file that
    cannot be read raises. *)
Fixpoint read_templates (table : list (Py.str * Py.str)) : result (list json) :=
  match table with
  | [] => Ok []
  | (filename, template_type) :: rest =>
      content <-? read_text filename ;;
      records <-? read_templates rest ;;
      Ok (template_record filename template_type content :: records)
  end.

Definition get_pr_templates : result Py.str :=
  templates <-? read_templates DEFAULT_TEMPLATES ;;
  Ok (dumps (Some 2) (JArray templates)).

(** [next((t for t in templates if t["filename"] == template_file),
    default)]: a [t] that is no dict or has no such key raises. *)
Fixpoint next_match (templates : list json) (template_file : Py.str)
    (default : json) : result json :=
  match templates with
  | [] => Ok default
  | t :: rest =>
      match field $"filename" t with
      | None => Raise (Exception $"KeyError")
      | Some name =>
          match name with
          | JString s =>
              if Py.eqb s template_file then Ok t
              else next_match rest template_file default
          | _ => next_match rest template_file default
          end
      end
  end.

(** The dict [suggestion] of [suggest_template]. *)
Definition suggestion (selected_template content : json)
    (changes_summary change_type : Py.str) : json :=
  JObject
    [ ($"recommended_template", selected_template);
      ($"reasoning",
       JString ($"Based on your analysis: '" ++ changes_summary ++
                $"', this appears to be a " ++ change_type ++ $" change."));
      ($"template_content", content);
      ($"usage_hint",
       JString $"Claude can help you fill out this template based on the specific changes in your PR.") ].

Definition suggest_template (changes_summary change_type : Py.str)
  : result Py.str :=
  templates_response <-? get_pr_templates ;;
  match loads templates_response with
  | None => Raise (Exception $"JSONDecodeError")
  | Some templates =>
      let template_file :=
        get_default TYPE_MAPPING (lower change_type) $"feature.md" in
      match templates with
      | JArray (first :: others) =>
          selected_template <-?
            next_match (first :: others) template_file first ;;
          match field $"content" selected_template with
          | None => Raise (Exception $"KeyError")
          | Some content =>
              Ok (dumps (Some 2)
                    (suggestion selected_template content
                                changes_summary change_type))
          end
      | _ => Raise (Exception $"IndexError")
      end
  end.

End Tools.

(** ** Well-formed documents *)

(** A Unicode scalar value: a code point that is no surrogate.  Text
    decoded from UTF-8 holds nothing else. *)
Definition scalar (c : N) : Prop := (c < 55296 \/ 57343 < c < 1114112)%N.

(** The digits of a decimal number as code points. *)
Fixpoint uint_chars (d : Decimal.uint) : Py.str :=
  match d with
  | Decimal.Nil => []
  | Decimal.D0 l => 48%N :: uint_chars l
  | Decimal.D1 l => 49%N :: uint_chars l
  | Decimal.D2 l => 50%N :: uint_chars l
  | Decimal.D3 l => 51%N :: uint_chars l
  | Decimal.D4 l => 52%N :: uint_chars l
  | Decimal.D5 l => 53%N :: uint_chars l
  | Decimal.D6 l => 54%N :: uint_chars l
  | Decimal.D7 l => 55%N :: uint_chars l
  | Decimal.D8 l => 56%N :: uint_chars l
  | Decimal.D9 l => 57%N :: uint_chars l
  end.

(** Input at which the scanner stops reading a number. *)
Definition ends_number (rest : Py.str) : Prop :=
  match rest with
  | [] => True
  | c :: _ => is_digit c = false /\ c <> 46%N /\ c <> 101%N /\ c <> 69%N
  end.

(** White space only. *)
Definition all_ws (w : Py.str) : Prop := Forall (fun c => is_ws c = true) w.

(** What may follow a value inside a document: nothing, a comma, a
    closing bracket or brace, or white space. *)
Definition delimited (rest : Py.str) : Prop :=
  match rest with
  | [] => True
  | c :: _ => c = 44%N \/ c = 93%N \/ c = 125%N \/ is_ws c = true
  end.

(** What a value starts with. *)
Definition starts_value (s : Py.str) : Prop :=
  match s with
  | [] => False
  | c :: _ => is_ws c = false /\ c <> 93%N /\ c <> 125%N
  end.

(** Well-formed documents: strings of scalar values, and no key twice
    in one object. *)
Definition wf_str (s : Py.str) : Prop := Forall scalar s.

#[local] Unset Elimination Schemes.
Inductive wf : json -> Prop :=
| wf_null : wf JNull
| wf_bool b : wf (JBool b)
| wf_int n : wf (JInt n)
| wf_string s : wf_str s -> wf (JString s)
| wf_array items : Forall wf items -> wf (JArray items)
| wf_object members :
    NoDup (map fst members) ->
    Forall (fun kv => wf_str (fst kv) /\ wf (snd kv)) members ->
    wf (JObject members).
#[local] Set Elimination Schemes.

(** Fuel that suffices to scan a document back. *)
Fixpoint need (v : json) : nat :=
  match v with
  | JArray items => S (Nat.max (List.length items) (list_max (map need items)))
  | JObject members =>
      S (Nat.max (List.length members)
                 (list_max (map (fun kv => need (snd kv)) members)))
  | _ => 1
  end.

(** Induction on documents, through the lists of items and members. *)
Section JsonInduction.

Variable P : json -> Prop.
Hypothesis Hnull : P JNull.

Hypothesis Hbool : forall b, P (JBool b).
Hypothesis Hint : forall n, P (JInt n).

Hypothesis Hstring : forall s, P (JString s).
Hypothesis Harray : forall items, Forall P items -> P (JArray items).

Hypothesis Hobject :
  forall members, Forall (fun kv => P (snd kv)) members -> P (JObject members).

Fixpoint json_induction (v : json) : P v :=
  match v with
  | JNull => Hnull
  | JBool b => Hbool b
  | JInt n => Hint n
  | JString s => Hstring s
  | JArray items =>
      Harray items
        ((fix all (l : list json) : Forall P l :=
            match l with
            | [] => Forall_nil P
            | x :: l' => Forall_cons x (json_induction x) (all l')
            end) items)
  | JObject members =>
      Hobject members
        ((fix all (l : list (Py.str * json))
            : Forall (fun kv => P (snd kv)) l :=
            match l with
            | [] => Forall_nil _
            | kv :: l' =>
                Forall_cons kv (json_induction (snd kv)) (all l')
            end) members)
  end.

End JsonInduction.

(** One member of an object as [encode] writes it inside an object at
    depth [level]. *)
Definition encode_member (indent : option nat) (level : nat)
    (kv : Py.str * json) : Py.str :=
  encode_basestring_ascii (fst kv) ++ key_separator
  ++ encode indent (S level) (snd kv).

(** ** Names for what the theorems speak of *)

(** The four queries of [analyze_file_changes], in the order it issues
    them. *)
Definition diff_command (base_branch dir : Py.str) : command :=
  Command [$"git"; $"diff"; base_branch ++ $"..HEAD"] dir.

Definition stat_command (base_branch dir : Py.str) : command :=
  Command [$"git"; $"diff"; $"--stat"; base_branch ++ $"..HEAD"] dir.

Definition names_command (base_branch dir : Py.str) : command :=
  Command [$"git"; $"diff"; $"--name-only"; base_branch ++ $"...HEAD"] dir.

Definition log_command (base_branch dir : Py.str) : command :=
  Command [$"git"; $"log"; $"--oneline"; base_branch ++ $"..HEAD"] dir.

(** The text [{"message": "No changes detected."}]. *)
Definition no_changes_text : Py.str :=
  $"{" ++ Py.DQUOTE :: $"message" ++ Py.DQUOTE :: $": " ++
  Py.DQUOTE :: $"No changes detected." ++ Py.DQUOTE :: $"}".

Definition no_changes_doc : json :=
  JObject [($"message", JString $"No changes detected.")].

Definition error_doc (message : Py.str) : json :=
  JObject [($"error", JString message)].

(** The truncation marker, with the line break before it. *)
Definition truncation_marker : Py.str := Py.LF :: $"... (truncated)".

(** The value of the [truncated] key (lines 87 to 89 and 128). *)
Definition truncated_form (diff_output : Py.str) (max_diff_lines : Z)
  : Py.str :=
  if (Py.len (Py.splitlines diff_output) >? max_diff_lines)%Z
  then Py.join [Py.LF] (Py.slice_to (Py.splitlines diff_output) max_diff_lines)
       ++ truncation_marker
  else Py.strip diff_output.

(** The locals after the [try] block, from what the four queries wrote. *)
Definition locals_of (max_diff_lines : Z) (diff stat names commits : outcome)
  : option locals :=
  match diff, stat, names, commits with
  | Exited _ (c :: out1) _, Exited st2 out2 err2, Exited _ out3 _,
    Exited st4 out4 err4 =>
      Some {| diff_output := c :: out1;
              diff_lines := Py.splitlines (c :: out1);
              truncated :=
                if (Py.len (Py.splitlines (c :: out1)) >? max_diff_lines)%Z
                then Some (Py.join [Py.LF]
                             (Py.slice_to (Py.splitlines (c :: out1))
                                          max_diff_lines)
                           ++ Py.LF :: $"... (truncated)")
                else None;
              stats_result :=
                {| returncode := st2; stdout := out2; stderr := err2 |};
              changed_files := Py.splitlines (Py.strip out3);
              commits_result :=
                {| returncode := st4; stdout := out4; stderr := err4 |} |}
  | _, _, _, _ => None
  end.

(** The seven keys of a change report, in order. *)
Definition report_keys : list Py.str :=
  [$"base_branch"; $"files_changed"; $"statistics"; $"commits"; $"diff";
   $"truncated"; $"total_diff_lines"].

(** [run_process] answers the command [c] by running it to its end with
    [out] on its standard output, whatever its exit status. *)
Definition answers (run_process : command -> outcome) (c : command)
    (out : Py.str) : Prop :=
  exists status err, run_process c = Exited status out err.

(** The same operating system with every exit status replaced by zero. *)
Definition with_status_zero (run_process : command -> outcome) (c : command)
  : outcome :=
  match run_process c with
  | Exited _ out err => Exited 0 out err
  | Failed message => Failed message
  end.

(** ** Concrete runs *)

(** A two-line diff, and the other three outputs of a small branch with
    two commits. *)
Definition sample_diff : Py.str := $"-old" ++ Py.LF :: $"+new" ++ [Py.LF].
Definition sample_stat : Py.str := $" f.txt | 2 +-" ++ [Py.LF].
Definition sample_names : Py.str := $"f.txt" ++ [Py.LF].
Definition sample_log : Py.str :=
  $"abc1234 second" ++ Py.LF :: $"def5678 first" ++ [Py.LF].

(** The answer to the four queries by the shape of the command line. *)
Definition git_answer (diff stat names commits : outcome) (c : command)
  : outcome :=
  match argv c with
  | [_; _; _] => diff
  | [_; verb; flag; _] =>
      if Py.eqb verb $"log" then commits
      else if Py.eqb flag $"--stat" then stat
      else names
  | _ => Failed $"unexpected command"
  end.

(** A repository with changes on the branch; every command exits with
    status 0. *)
Definition git_sample : command -> outcome :=
  git_answer (Exited 0 sample_diff []) (Exited 0 sample_stat [])
             (Exited 0 sample_names []) (Exited 0 sample_log []).

(** A clean branch: every query writes nothing. *)
Definition git_clean : command -> outcome :=
  git_answer (Exited 0 [] []) (Exited 0 [] []) (Exited 0 [] [])
             (Exited 0 [] []).

(** An unknown base branch: git exits with status 128 and writes only to
    its standard error. *)
Definition git_unknown_branch : command -> outcome :=
  let fatal := Exited 128 [] $"fatal: ambiguous argument 'nope..HEAD'" in
  git_answer fatal fatal fatal fatal.

(** The diff succeeds and the later three queries exit with status 1 and
    write nothing. *)
Definition git_later_fail : command -> outcome :=
  git_answer (Exited 0 sample_diff []) (Exited 1 [] $"error")
             (Exited 1 [] $"error") (Exited 1 [] $"error").

(** The template store holds every file of the fixed table. *)
Definition provisioned (read_text : Py.str -> result Py.str) : Prop :=
  forall filename,
    In filename (map fst DEFAULT_TEMPLATES) ->
    exists content, read_text filename = Ok content.

(** What [read_text] returns is text decoded from UTF-8: scalar values
    only. *)
Definition decoded_text (read_text : Py.str -> result Py.str) : Prop :=
  forall filename content,
    In filename (map fst DEFAULT_TEMPLATES) ->
    read_text filename = Ok content -> wf_str content.

(** [str.lower] on an ASCII string is its ASCII lower-case form. *)
Definition lowers_ascii (lower : Py.str -> Py.str) : Prop :=
  forall s, Py.is_ascii s -> lower s = Py.ascii_lower s.

(** The record of a table entry whose file holds [content]. *)
Definition record_of (read_text : Py.str -> result Py.str)
    (entry : Py.str * Py.str) (record : json) : Prop :=
  exists content,
    read_text (fst entry) = Ok content /\
    record = template_record (fst entry) (snd entry) content.

(** The four keys of a recommendation, in order. *)
Definition suggestion_keys : list Py.str :=
  [$"recommended_template"; $"reasoning"; $"template_content"; $"usage_hint"].

(** A template store in which every file holds a heading and a line. *)
Definition sample_store (filename : Py.str) : result Py.str :=
  Ok ($"## " ++ filename ++ Py.LF :: $"Describe the change." ++ [Py.LF]).

(** A template store from which [docs.md] is missing. *)
Definition store_without_docs (filename : Py.str) : result Py.str :=
  if Py.eqb filename $"docs.md"
  then Raise (Exception $"No such file or directory")
  else sample_store filename.

(** No git on the path: starting any command raises. *)
Definition git_missing (c : command) : outcome :=
  Failed $"[Errno 2] No such file or directory: 'git'".

(** ** Lines, white space and the order of the queries *)

(** Every code point of a line: none is a line boundary. *)
Definition no_break (line : Py.str) : Prop :=
  Forall (fun c => Py.is_linebreak c = false) line.

(** A string with no white space at either end. *)
Definition stripped (s : Py.str) : Prop :=
  match s with
  | [] => True
  | c :: _ => Py.is_space c = false /\ Py.is_space (last s c) = false
  end.

(** White space only. *)
Definition blank (s : Py.str) : Prop :=
  Forall (fun c => Py.is_space c = true) s.

(** The input after the line boundary [c]: a CR takes the LF after it. *)
Definition after_break (c : N) (s : Py.str) : Py.str :=
  match s with
  | d :: s' => if ((c =? Py.CR)%N && (d =? Py.LF)%N) then s' else s
  | [] => []
  end.

(** The four queries in the order [analyze_file_changes] issues them. *)
Definition four_commands (base_branch dir : Py.str) : list command :=
  [diff_command base_branch dir; stat_command base_branch dir;
   names_command base_branch dir; log_command base_branch dir].

(** What the processes write, and the message of what they raise, is
    decoded text. *)
Definition decoded_process (run_process : command -> outcome) : Prop :=
  forall c,
    match run_process c with
    | Exited _ out _ => wf_str out
    | Failed message => wf_str message
    end.

(** A diff that is one empty line; the other queries as in the sample. *)
Definition git_blank_diff : command -> outcome :=
  git_answer (Exited 0 [Py.LF] []) (Exited 0 sample_stat [])
             (Exited 0 sample_names []) (Exited 0 sample_log []).

(* END-DEFINITIONS *)

(** ** [json.loads] after [json.dumps]

    [suggest_template] parses what [get_pr_templates] printed.  The
    lemmas below show that the scanner gives back every well-formed
    document the encoder writes: first strings with their escapes, then
    integers, then arrays and objects with their white space. *)

(** Case analysis on the comparisons of code points in the goal. *)
Ltac ncases :=
  repeat match goal with
         | |- context [(?a <=? ?b)%N] => destruct (N.leb_spec a b)
         | |- context [(?a <? ?b)%N] => destruct (N.ltb_spec a b)
         | |- context [(?a =? ?b)%N] => destruct (N.eqb_spec a b)
         end;
  cbn [andb orb negb].

Lemma hex_value_digit d : (d < 16)%N -> hex_value (hex_digit d) = Some d.
Proof.
  intros H. unfold hex_value, hex_digit. ncases; try lia; f_equal; lia.
Qed.

Lemma decode_hex4_digits c :
  (c < 65536)%N ->
  decode_hex4 (hex_digit ((c / 4096) mod 16)) (hex_digit ((c / 256) mod 16))
              (hex_digit ((c / 16) mod 16)) (hex_digit (c mod 16)) = Some c.
Proof.
  intros H. unfold decode_hex4.
  rewrite !hex_value_digit by (apply N.mod_lt; lia).
  f_equal. zify. Z.to_euclidean_division_equations. lia.
Qed.

Lemma lor_high_low a x : (x < 1024)%N -> N.lor (a * 1024) x = (a * 1024 + x)%N.
Proof.
  intros H. rewrite <- N.lxor_lor, <- N.add_nocarry_lxor; try reflexivity.
  all: apply N.bits_inj; intros m; rewrite N.land_spec, N.bits_0.
  all: destruct (N.lt_ge_cases m 10) as [Hm|Hm].
  all: try (change 1024%N with (2 ^ 10)%N;
            rewrite N.mul_pow2_bits_low by exact Hm; reflexivity).
  all: destruct (N.eq_dec x 0) as [->|Hx];
    [rewrite N.bits_0; apply andb_false_r|].
  all: rewrite (N.bits_above_log2 x m), andb_false_r; [reflexivity|].
  all: apply N.lt_le_trans with 10%N; [|exact Hm].
  all: apply N.log2_lt_pow2; [lia|exact H].
Qed.

Lemma high_surrogate_value n :
  (n < 1048576)%N ->
  N.lor 55296 (N.land (N.shiftr n 10) 1023) = (55296 + n / 1024)%N.
Proof.
  intros H. change 1023%N with (N.ones 10).
  rewrite N.land_ones, N.shiftr_div_pow2. change (2 ^ 10)%N with 1024%N.
  change 55296%N with (54 * 1024)%N.
  rewrite lor_high_low by (apply N.mod_lt; lia).
  f_equal. apply N.mod_small. zify. Z.to_euclidean_division_equations. lia.
Qed.

Lemma low_surrogate_value n :
  N.lor 56320 (N.land n 1023) = (56320 + n mod 1024)%N.
Proof.
  change 1023%N with (N.ones 10). rewrite N.land_ones.
  change (2 ^ 10)%N with 1024%N. change 56320%N with (55 * 1024)%N.
  apply lor_high_low. apply N.mod_lt. lia.
Qed.

Lemma scanstring_u_escape c tail acc :
  (c < 65536)%N -> is_high_surrogate c = false ->
  scanstring (u_escape c ++ tail) acc = scanstring tail (acc ++ [c]).
Proof.
  intros H Hs. unfold u_escape, hex4. cbn [app scanstring].
  change (Py.BACKSLASH =? Py.DQUOTE)%N with false.
  change (Py.BACKSLASH =? Py.BACKSLASH)%N with true.
  change (117 =? 117)%N with true. cbv iota.
  rewrite decode_hex4_digits by exact H. rewrite Hs. reflexivity.
Qed.

Lemma scanstring_surrogate_pair q r tail acc :
  (q < 1024)%N -> (r < 1024)%N ->
  scanstring (u_escape (55296 + q) ++ u_escape (56320 + r) ++ tail) acc
    = scanstring tail (acc ++ [join_surrogates (55296 + q) (56320 + r)]).
Proof.
  intros Hq Hr. unfold u_escape at 1, hex4. cbn [app scanstring].
  change (Py.BACKSLASH =? Py.DQUOTE)%N with false.
  change (Py.BACKSLASH =? Py.BACKSLASH)%N with true.
  change (117 =? 117)%N with true. cbv iota.
  rewrite decode_hex4_digits by lia.
  replace (is_high_surrogate (55296 + q)) with true
    by (unfold is_high_surrogate; ncases; try reflexivity; lia).
  unfold u_escape, hex4. cbn [List.app].
  change (Py.BACKSLASH =? Py.BACKSLASH)%N with true.
  change (117 =? 117)%N with true. cbn [andb].
  rewrite decode_hex4_digits by lia.
  replace (is_low_surrogate (56320 + r)) with true
    by (unfold is_low_surrogate; ncases; try reflexivity; lia).
  reflexivity.
Qed.

Lemma scanstring_escape_char c tail acc :
  scalar c ->
  scanstring (escape_char c ++ tail) acc = scanstring tail (acc ++ [c]).
Proof.
  intros Hc. unfold escape_char, Py.DQUOTE, Py.BACKSLASH.
  destruct (N.eqb_spec c 34) as [->|N1]; [reflexivity|].
  destruct (N.eqb_spec c 92) as [->|N2]; [reflexivity|].
  destruct (N.eqb_spec c 8) as [->|N3]; [reflexivity|].
  destruct (N.eqb_spec c 12) as [->|N4]; [reflexivity|].
  destruct (N.eqb_spec c 10) as [->|N5]; [reflexivity|].
  destruct (N.eqb_spec c 13) as [->|N6]; [reflexivity|].
  destruct (N.eqb_spec c 9) as [->|N7]; [reflexivity|].
  destruct ((32 <=? c) && (c <=? 126))%N eqn:Hp.
  { apply andb_true_iff in Hp. destruct Hp as [Hlo Hhi].
    apply N.leb_le in Hlo, Hhi. cbn [app scanstring].
    unfold Py.DQUOTE, Py.BACKSLASH.
    destruct (N.eqb_spec c 34); [contradiction|].
    destruct (N.eqb_spec c 92); [contradiction|].
    destruct (N.ltb_spec c 32); [lia|]. reflexivity. }
  destruct (N.ltb_spec c 65536) as [Hb|Hb].
  { apply scanstring_u_escape; [exact Hb|].
    unfold is_high_surrogate, scalar in *. ncases; try reflexivity; lia. }
  cbv zeta. rewrite high_surrogate_value, low_surrogate_value
    by (unfold scalar in Hc; lia).
  assert (Hn : (c - 65536 < 1048576)%N) by (unfold scalar in Hc; lia).
  assert (Hq : ((c - 65536) / 1024 < 1024)%N)
    by (apply N.Div0.div_lt_upper_bound; lia).
  assert (Hr : ((c - 65536) mod 1024 < 1024)%N) by (apply N.mod_lt; lia).
  assert (Hc' : c = (65536 + (1024 * ((c - 65536) / 1024)
                               + (c - 65536) mod 1024))%N)
    by (rewrite <- N.div_mod by lia; lia).
  revert Hq Hr Hc'.
  generalize ((c - 65536) / 1024)%N, ((c - 65536) mod 1024)%N.
  intros q r Hq Hr Hc'.
  rewrite <- app_assoc.
  rewrite scanstring_surrogate_pair by assumption.
  unfold join_surrogates. do 3 f_equal. lia.
Qed.

Lemma scanstring_escaped s : forall tail acc,
  Forall scalar s ->
  scanstring (flat_map escape_char s ++ Py.DQUOTE :: tail) acc
    = Some (acc ++ s, tail).
Proof.
  induction s as [|c s IH]; intros tail acc Hs.
  - cbn. rewrite app_nil_r. reflexivity.
  - inversion Hs as [|? ? Hc Hs']; subst. cbn [flat_map].
    rewrite <- app_assoc, scanstring_escape_char by exact Hc.
    rewrite IH by exact Hs'. rewrite <- app_assoc. reflexivity.
Qed.

Lemma lit_string_of_uint d :
  Py.lit (DecimalString.NilEmpty.string_of_uint d) = uint_chars d.
Proof.
  induction d; cbn [DecimalString.NilEmpty.string_of_uint uint_chars];
    try reflexivity;
    unfold Py.lit in *; cbn [list_ascii_of_string map]; f_equal; assumption.
Qed.

Lemma scan_digits_end rest acc :
  ends_number rest -> scan_digits rest acc = (acc, rest).
Proof.
  destruct rest as [|c rest]; [reflexivity|]. intros (H & _).
  cbn [scan_digits]. rewrite H. reflexivity.
Qed.

Lemma scan_digits_acc d : forall rest acc,
  ends_number rest ->
  scan_digits (uint_chars d ++ rest) (Z.pos acc)
    = (Z.pos (Pos.of_uint_acc d acc), rest).
Proof.
  induction d; intros rest acc Hrest;
    cbn [uint_chars Pos.of_uint_acc]; cbn [List.app];
    [apply scan_digits_end; exact Hrest|..];
    cbn [scan_digits];
    match goal with
    | |- context [is_digit ?c] => change (is_digit c) with true
    end; cbv iota;
    match goal with
    | |- scan_digits _ ?z = _ =>
        match goal with
        | |- _ = (Z.pos (Pos.of_uint_acc _ ?a), _) =>
            replace z with (Z.pos a) by (simpl (Z.of_N _); lia)
        end
    end; apply IHd; exact Hrest.
Qed.

Lemma to_uint_head p :
  match Pos.to_uint p with Decimal.Nil | Decimal.D0 _ => False | _ => True end.
Proof.
  pose proof (DecimalN.Unsigned.to_of (Pos.to_uint p)) as H.
  unfold N.of_uint in H. rewrite DecimalPos.Unsigned.of_to in H.
  cbn [N.to_uint] in H.
  pose proof (DecimalPos.Unsigned.to_uint_nonzero p) as Hz.
  revert H Hz. generalize (Pos.to_uint p). intros d H Hz.
  rewrite H. unfold Decimal.unorm in *.
  destruct (Decimal.nzhead d) eqn:E; try exact I.
  - apply Hz. exact H.
  - exact (DecimalFacts.nzhead_nonzero _ _ E).
Qed.

Lemma scan_natural_pos p rest :
  ends_number rest ->
  scan_natural (uint_chars (Pos.to_uint p) ++ rest) = Some (Z.pos p, rest).
Proof.
  intros Hrest. pose proof (to_uint_head p) as Hhead.
  pose proof (DecimalPos.Unsigned.of_to p) as Hval.
  destruct (Pos.to_uint p) as [|d|d|d|d|d|d|d|d|d|d]; try contradiction;
    cbn [uint_chars]; cbn [List.app scan_natural];
    match goal with
    | |- context [(?c =? 48)%N] => change (c =? 48)%N with false
    end;
    match goal with
    | |- context [is_digit ?c] => change (is_digit c) with true
    end; cbv iota; cbn [scan_digits];
    match goal with
    | |- context [is_digit ?c] => change (is_digit c) with true
    end; cbv iota; cbn [Pos.of_uint] in Hval; injection Hval as Hval;
    match goal with
    | |- Some (scan_digits _ ?z) = _ =>
        match type of Hval with
        | Pos.of_uint_acc _ ?a = _ =>
            replace z with (Z.pos a) by (simpl (Z.of_N _); lia)
        end
    end; rewrite scan_digits_acc by exact Hrest; rewrite Hval; reflexivity.
Qed.

Lemma float_follows_end rest : ends_number rest -> float_follows rest = false.
Proof.
  destruct rest as [|c [|d rest]]; try reflexivity. intros (_ & H1 & H2 & H3).
  cbn [float_follows].
  destruct (N.eqb_spec c 46); [contradiction|].
  destruct (N.eqb_spec c 101); [contradiction|].
  destruct (N.eqb_spec c 69); [contradiction|]. reflexivity.
Qed.

Lemma int_repr_chars n :
  Py.int_repr n =
  match n with
  | Z0 => [48%N]
  | Z.pos p => uint_chars (Pos.to_uint p)
  | Z.neg p => 45%N :: uint_chars (Pos.to_uint p)
  end.
Proof.
  unfold Py.int_repr. destruct n as [|p|p]; cbn [Z.to_int]; try reflexivity.
  - unfold DecimalString.NilZero.string_of_int,
      DecimalString.NilZero.string_of_uint.
    pose proof (DecimalPos.Unsigned.to_uint_nonnil p).
    destruct (Pos.to_uint p) eqn:E; try contradiction;
      rewrite <- E; apply lit_string_of_uint.
  - unfold DecimalString.NilZero.string_of_int,
      DecimalString.NilZero.string_of_uint.
    pose proof (DecimalPos.Unsigned.to_uint_nonnil p).
    change (Py.lit (String "-" ?s)) with (45%N :: Py.lit s).
    f_equal.
    destruct (Pos.to_uint p) eqn:E; try contradiction;
      rewrite <- E; apply lit_string_of_uint.
Qed.

Lemma scan_number_int_repr n rest :
  ends_number rest -> scan_number (Py.int_repr n ++ rest) = Some (n, rest).
Proof.
  intros Hrest. rewrite int_repr_chars. unfold scan_number.
  destruct n as [|p|p].
  - cbn. rewrite float_follows_end by exact Hrest. reflexivity.
  - pose proof (to_uint_head p) as Hhead.
    pose proof (scan_natural_pos p rest Hrest) as Hscan.
    destruct (Pos.to_uint p) as [|d|d|d|d|d|d|d|d|d|d]; try contradiction;
      cbn [uint_chars] in *; cbn [List.app] in *;
      match goal with
      | |- context [(?c =? 45)%N] => change (c =? 45)%N with false
      end; cbv iota; rewrite Hscan, float_follows_end by exact Hrest;
      reflexivity.
  - cbn [List.app]. change (45 =? 45)%N with true. cbv iota.
    rewrite scan_natural_pos, float_follows_end by exact Hrest. reflexivity.
Qed.

Lemma skip_ws_app w s : all_ws w -> skip_ws (w ++ s) = skip_ws s.
Proof.
  induction 1 as [|c w Hc _ IH]; [reflexivity|].
  cbn [List.app skip_ws]. rewrite Hc. exact IH.
Qed.

Lemma skip_ws_head c s : is_ws c = false -> skip_ws (c :: s) = c :: s.
Proof. intros H. cbn [skip_ws]. rewrite H. reflexivity. Qed.

Lemma newline_indent_ws indent level : all_ws (newline_indent indent level).
Proof.
  destruct indent as [n|]; [|constructor]. constructor; [reflexivity|].
  apply Forall_forall. intros c Hc. apply repeat_spec in Hc. subst.
  reflexivity.
Qed.

Lemma separator_shape indent level :
  exists w, item_separator indent ++ newline_indent indent level = 44%N :: w
            /\ all_ws w.
Proof.
  destruct indent as [n|].
  - exists (newline_indent (Some n) level). split; [reflexivity|].
    apply newline_indent_ws.
  - exists [32%N]. split; [reflexivity|]. repeat constructor.
Qed.

Lemma delimited_ends_number rest : delimited rest -> ends_number rest.
Proof.
  destruct rest as [|c rest]; [trivial|].
  unfold delimited, ends_number, is_ws, is_digit.
  intros [-> | [-> | [-> | H]]].
  1-3: repeat split; (reflexivity || discriminate).
  revert H. ncases; try discriminate; intros _; repeat split; lia.
Qed.

Lemma delimited_close indent level c rest :
  c = 93%N \/ c = 125%N ->
  delimited (newline_indent indent level ++ c :: rest).
Proof.
  intros Hc. destruct indent as [n|]; cbn.
  - right. right. right. reflexivity.
  - destruct Hc as [-> | ->]; auto.
Qed.

Lemma skip_ws_close indent level c rest :
  is_ws c = false ->
  skip_ws (newline_indent indent level ++ c :: rest) = c :: rest.
Proof.
  intros Hc. rewrite skip_ws_app by apply newline_indent_ws.
  apply skip_ws_head. exact Hc.
Qed.

Lemma starts_value_app s t : starts_value s -> starts_value (s ++ t).
Proof. destruct s; [contradiction|]. trivial. Qed.

Lemma int_repr_head n :
  match Py.int_repr n with
  | [] => False
  | c :: _ => is_digit c = true \/ c = 45%N
  end.
Proof.
  rewrite int_repr_chars. destruct n as [|p|p]; cbn; auto.
  pose proof (to_uint_head p).
  destruct (Pos.to_uint p); try contradiction; cbn; auto.
Qed.

Lemma encode_starts_value indent level v :
  starts_value (encode indent level v).
Proof.
  destruct v as [|[|]|n|s|[|x l]|[|kv m]]; cbn [encode];
    try (cbn; repeat split; discriminate).
  pose proof (int_repr_head n) as H.
  destruct (Py.int_repr n) as [|c t]; [contradiction|]. cbn.
  unfold is_digit, is_ws in *.
  destruct H as [H | ->]; [|repeat split; discriminate].
  revert H. ncases; try discriminate; intros _; repeat split; lia.
Qed.

Lemma skip_ws_starts_value s : starts_value s -> skip_ws s = s.
Proof.
  destruct s as [|c s]; [contradiction|]. intros (H & _).
  apply skip_ws_head. exact H.
Qed.

Lemma join_cons2 sep a b l :
  Py.join sep (a :: b :: l) = a ++ sep ++ Py.join sep (b :: l).
Proof. reflexivity. Qed.

Lemma join_starts_value sep indent level x l :
  starts_value (Py.join sep (map (encode indent level) (x :: l))).
Proof.
  destruct l as [|y l]; cbn [map].
  - apply encode_starts_value.
  - rewrite join_cons2. apply starts_value_app, encode_starts_value.
Qed.

Section Items.

Variable scan : Py.str -> option (json * Py.str).
Variable indent : option nat.

Variable level : nat.
Variable rest : Py.str.

Lemma scan_items_encode items : forall acc fuel,
  items <> [] ->
  List.length items <= fuel ->
  Forall (fun x => forall tail, delimited tail ->
            scan (encode indent (S level) x ++ tail) = Some (x, tail)) items ->
  scan_items scan fuel
    (Py.join (item_separator indent ++ newline_indent indent (S level))
             (map (encode indent (S level)) items)
     ++ newline_indent indent level ++ 93%N :: rest) acc
    = Some (JArray (acc ++ items), rest).
Proof.
  destruct (separator_shape indent (S level)) as (w & Hsep & Hw).
  rewrite Hsep.
  induction items as [|x items IH]; intros acc fuel Hne Hlen Hall;
    [congruence|].
  inversion Hall as [|? ? Hx Hrest]; subst.
  destruct fuel as [|fuel]; [cbn in Hlen; lia|].
  destruct items as [|y items].
  - cbn [map Py.join scan_items].
    rewrite Hx by (apply delimited_close; auto).
    rewrite skip_ws_close by reflexivity.
    change (93 =? 93)%N with true. reflexivity.
  - cbn [map]. rewrite join_cons2.
    rewrite <- !app_assoc. cbn [scan_items List.app].
    rewrite Hx by (cbn; auto).
    rewrite skip_ws_head by reflexivity.
    change (44 =? 93)%N with false. change (44 =? 44)%N with true. cbv iota.
    rewrite skip_ws_app by exact Hw.
    change (Py.join (44%N :: w) (encode indent (S level) y
                                 :: map (encode indent (S level)) items))
      with (Py.join (44%N :: w) (map (encode indent (S level)) (y :: items))).
    rewrite skip_ws_starts_value
      by (apply starts_value_app, join_starts_value).
    rewrite IH; [|discriminate|cbn in *; lia|exact Hrest].
    rewrite <- app_assoc. reflexivity.
Qed.

Lemma dict_set_fresh key v acc :
  ~ In key (map fst acc) -> dict_set key v acc = acc ++ [(key, v)].
Proof.
  induction acc as [|[k w] acc IH]; intros Hin; [reflexivity|].
  cbn [dict_set]. unfold Py.eqb.
  destruct (list_eq_dec N.eq_dec k key) as [->|Hk].
  - exfalso. apply Hin. left. reflexivity.
  - cbn [List.app]. f_equal. apply IH. intros H. apply Hin. right. exact H.
Qed.

Lemma scan_members_encode members : forall acc fuel,
  members <> [] ->
  List.length members <= fuel ->
  Forall (fun kv => wf_str (fst kv) /\
            forall tail, delimited tail ->
              scan (encode indent (S level) (snd kv) ++ tail)
                = Some (snd kv, tail)) members ->
  NoDup (map fst (acc ++ members)) ->
  scan_members scan fuel
    (Py.join (item_separator indent ++ newline_indent indent (S level))
             (map (encode_member indent level) members)
     ++ newline_indent indent level ++ 125%N :: rest) acc
    = Some (JObject (acc ++ members), rest).
Proof.
  destruct (separator_shape indent (S level)) as (w & Hsep & Hw).
  rewrite Hsep.
  induction members as [|[k v] members IH]; intros acc fuel Hne Hlen Hall Hdup;
    [congruence|].
  inversion Hall as [|? ? [Hk Hv] Hrest]; subst. cbn [fst snd] in Hk, Hv.
  destruct fuel as [|fuel]; [cbn in Hlen; lia|].
  assert (Hfresh : ~ In k (map fst acc)).
  { rewrite map_app in Hdup. cbn [map fst] in Hdup.
    apply NoDup_remove_2 in Hdup. intros H. apply Hdup.
    apply in_or_app. left. exact H. }
  assert (Hdup' : NoDup (map fst ((acc ++ [(k, v)]) ++ members)))
    by (rewrite <- app_assoc; exact Hdup).
  assert (Hkey : forall tail, delimited tail ->
    scan_members scan (S fuel)
      (encode_member indent level (k, v) ++ tail) acc =
    match skip_ws tail with
    | d :: s4 =>
        if (d =? 125)%N then Some (JObject (acc ++ [(k, v)]), s4)
        else if (d =? 44)%N
             then scan_members scan fuel (skip_ws s4) (acc ++ [(k, v)])
             else None
    | [] => None
    end).
  { intros tail Htail. unfold encode_member, encode_basestring_ascii,
      key_separator. cbn [fst snd]. cbn [scan_members List.app].
    change (Py.DQUOTE =? Py.DQUOTE)%N with true. cbv iota.
    rewrite <- !app_assoc. cbn [List.app].
    rewrite scanstring_escaped by exact Hk. cbn [List.app].
    change ($": ") with [58%N; 32%N]. cbn [List.app].
    rewrite skip_ws_head by reflexivity.
    change (58 =? 58)%N with true. cbv iota.
    change (skip_ws (32%N :: ?s)) with (skip_ws s).
    rewrite skip_ws_starts_value
      by (apply starts_value_app, encode_starts_value).
    rewrite Hv by exact Htail. rewrite dict_set_fresh by exact Hfresh.
    reflexivity. }
  destruct members as [|kv' members].
  - cbn [map Py.join]. rewrite Hkey by (apply delimited_close; auto).
    rewrite skip_ws_close by reflexivity.
    change (125 =? 125)%N with true. reflexivity.
  - cbn [map]. rewrite join_cons2. rewrite <- !app_assoc.
    rewrite Hkey by (cbn; auto). cbn [List.app].
    rewrite skip_ws_head by reflexivity.
    change (44 =? 125)%N with false. change (44 =? 44)%N with true. cbv iota.
    rewrite skip_ws_app by exact Hw.
    change (Py.join (44%N :: w)
              (encode_member indent level kv'
               :: map (encode_member indent level) members))
      with (Py.join (44%N :: w)
              (map (encode_member indent level) (kv' :: members))).
    assert (Hstart : starts_value
              (Py.join (44%N :: w)
                 (map (encode_member indent level) (kv' :: members)))).
    { destruct members; cbn; repeat split; discriminate. }
    rewrite skip_ws_starts_value by (apply starts_value_app, Hstart).
    rewrite IH; [|discriminate|cbn in *; lia|exact Hrest|exact Hdup'].
    rewrite <- app_assoc. reflexivity.
Qed.

End Items.

Lemma need_positive v : 1 <= need v.
Proof. destruct v; cbn; lia. Qed.

Lemma scan_once_number fuel c s :
  is_digit c = true \/ c = 45%N ->
  scan_once (S fuel) (c :: s) =
  match scan_number (c :: s) with
  | Some (n, r) => Some (JInt n, r)
  | None => None
  end.
Proof.
  intros Hc. cbn [scan_once]. unfold Py.DQUOTE.
  assert (H : (c =? 34)%N = false /\ (c =? 123)%N = false /\
              (c =? 91)%N = false /\ (110 =? c)%N = false /\
              (116 =? c)%N = false /\ (102 =? c)%N = false).
  { unfold is_digit in Hc. destruct Hc as [Hc | ->];
      [|repeat split; reflexivity].
    revert Hc. ncases; try discriminate; intros _; repeat split; lia. }
  destruct H as (-> & -> & -> & H1 & H2 & H3).
  change ($"null") with [110; 117; 108; 108]%N.
  change ($"true") with [116; 114; 117; 101]%N.
  change ($"false") with [102; 97; 108; 115; 101]%N.
  cbn [after_prefix]. rewrite H1, H2, H3. reflexivity.
Qed.

(** A well-formed document printed at any depth, with or without
    indentation, scans back to itself. *)
Lemma scan_once_encode v :
  wf v ->
  forall fuel indent level rest,
    need v <= fuel -> delimited rest ->
    scan_once fuel (encode indent level v ++ rest) = Some (v, rest).
Proof.
  induction v as [| b | n | s | items IH | members IH] using json_induction;
    intros Hwf fuel indent level rest Hfuel Hrest;
    (destruct fuel as [|fuel]; [cbn in Hfuel; lia|]).
  - reflexivity.
  - destruct b; reflexivity.
  - cbn [encode]. pose proof (int_repr_head n) as Hhead.
    pose proof (scan_number_int_repr n rest
                  (delimited_ends_number rest Hrest)) as Hscan.
    destruct (Py.int_repr n) as [|c t]; [contradiction|].
    cbn [List.app] in *. rewrite scan_once_number by exact Hhead.
    rewrite Hscan. reflexivity.
  - inversion Hwf; subst. cbn [encode]. unfold encode_basestring_ascii.
    cbn [List.app scan_once]. change (Py.DQUOTE =? Py.DQUOTE)%N with true.
    cbv iota. rewrite <- app_assoc. cbn [List.app].
    rewrite scanstring_escaped by assumption. reflexivity.
  - inversion Hwf as [| | | |? Hitems|]; subst.
    destruct items as [|x items]; [reflexivity|].
    cbn [need] in Hfuel.
    set (l := x :: items) in *.
    assert (Hall : Forall (fun x => forall tail, delimited tail ->
              scan_once fuel (encode indent (S level) x ++ tail)
                = Some (x, tail)) l).
    { apply Forall_forall. intros y Hy tail Htail.
      rewrite Forall_forall in IH, Hitems.
      apply IH; [exact Hy|apply Hitems; exact Hy| |exact Htail].
      assert (Hm : list_max (map need l) <= fuel) by lia.
      apply list_max_le in Hm. rewrite Forall_forall in Hm.
      apply Hm. apply in_map. exact Hy. }
    change (encode indent level (JArray l))
      with ($"[" ++ newline_indent indent (S level) ++
            Py.join (item_separator indent ++ newline_indent indent (S level))
                    (map (encode indent (S level)) l) ++
            newline_indent indent level ++ $"]").
    change ($"[") with [91%N]. change ($"]") with [93%N].
    rewrite <- !app_assoc. cbn [List.app scan_once].
    change (91 =? Py.DQUOTE)%N with false. change (91 =? 123)%N with false.
    change (91 =? 91)%N with true. cbv iota.
    rewrite skip_ws_app by apply newline_indent_ws.
    assert (Hstart : starts_value
      (Py.join (item_separator indent ++ newline_indent indent (S level))
               (map (encode indent (S level)) l)))
      by apply join_starts_value.
    rewrite skip_ws_starts_value by (apply starts_value_app, Hstart).
    destruct (Py.join _ _) as [|d r] eqn:E; [contradiction|].
    cbn [List.app]. destruct Hstart as (_ & Hd & _).
    destruct (N.eqb_spec d 93); [contradiction|].
    change (d :: r ++ newline_indent indent level ++ 93%N :: rest)
      with ((d :: r) ++ newline_indent indent level ++ 93%N :: rest).
    rewrite <- E. apply scan_items_encode; [discriminate|lia|exact Hall].
  - inversion Hwf as [| | | | |? Hdup Hmembers]; subst.
    destruct members as [|kv members]; [reflexivity|].
    cbn [need] in Hfuel.
    set (l := kv :: members) in *.
    assert (Hall : Forall (fun kv => wf_str (fst kv) /\
              forall tail, delimited tail ->
                scan_once fuel (encode indent (S level) (snd kv) ++ tail)
                  = Some (snd kv, tail)) l).
    { apply Forall_forall. intros y Hy.
      rewrite Forall_forall in IH, Hmembers.
      destruct (Hmembers y Hy) as [Hkey Hval]. split; [exact Hkey|].
      intros tail Htail.
      apply IH; [exact Hy|exact Hval| |exact Htail].
      assert (Hm : list_max (map (fun kv => need (snd kv)) l) <= fuel) by lia.
      apply list_max_le in Hm. rewrite Forall_forall in Hm.
      apply Hm. apply (in_map (fun kv => need (snd kv))). exact Hy. }
    change (encode indent level (JObject l))
      with ($"{" ++ newline_indent indent (S level) ++
            Py.join (item_separator indent ++ newline_indent indent (S level))
                    (map (encode_member indent level) l) ++
            newline_indent indent level ++ $"}").
    change ($"{") with [123%N]. change ($"}") with [125%N].
    rewrite <- !app_assoc. cbn [List.app scan_once].
    change (123 =? Py.DQUOTE)%N with false. change (123 =? 123)%N with true.
    cbv iota.
    rewrite skip_ws_app by apply newline_indent_ws.
    assert (Hstart : exists r,
      Py.join (item_separator indent ++ newline_indent indent (S level))
              (map (encode_member indent level) l) = Py.DQUOTE :: r).
    { unfold l. destruct members; cbn; eexists; reflexivity. }
    destruct Hstart as (r & Hr).
    pose proof (scan_members_encode (scan_once fuel) indent level rest l []
                  fuel) as Hscan.
    rewrite Hr in *. cbn [List.app skip_ws].
    change (is_ws Py.DQUOTE) with false. cbv iota.
    change (Py.DQUOTE =? 125)%N with false. cbv iota.
    apply Hscan; [discriminate|lia|exact Hall|exact Hdup].
Qed.

Lemma join_length_part sep parts p :
  In p parts -> List.length p <= List.length (Py.join sep parts).
Proof.
  induction parts as [|q parts IH]; [contradiction|].
  intros [-> | Hin]; destruct parts as [|q' parts];
    try contradiction; try (cbn; lia).
  - rewrite join_cons2, !length_app. lia.
  - eapply Nat.le_trans; [exact (IH Hin)|].
    rewrite join_cons2, !length_app. unfold Py.str in *. lia.
Qed.

Lemma join_length_count sep parts :
  Forall (fun p => 1 <= List.length p) parts ->
  List.length parts <= List.length (Py.join sep parts).
Proof.
  induction 1 as [|p parts Hp _ IH]; [cbn; lia|].
  destruct parts as [|q parts]; [cbn in *; lia|].
  rewrite join_cons2, !length_app. cbn [List.length] in *.
  unfold Py.str in *. lia.
Qed.

Lemma need_le_length indent v : forall level,
  need v <= List.length (encode indent level v).
Proof.
  induction v as [| b | n | s | items IH | members IH] using json_induction;
    intros level.
  - cbn. lia.
  - destruct b; cbn; lia.
  - cbn [need encode]. pose proof (int_repr_head n).
    destruct (Py.int_repr n); [contradiction|cbn; lia].
  - cbn. lia.
  - destruct items as [|x items]; [cbn; lia|].
    set (l := x :: items) in *. cbn [need].
    change (encode indent level (JArray l))
      with ($"[" ++ newline_indent indent (S level) ++
            Py.join (item_separator indent ++ newline_indent indent (S level))
                    (map (encode indent (S level)) l) ++
            newline_indent indent level ++ $"]").
    rewrite !length_app. cbn [List.length Py.lit map list_ascii_of_string].
    set (J := Py.join _ _).
    assert (H1 : List.length l <= List.length J).
    { rewrite <- (length_map (encode indent (S level)) l).
      apply join_length_count. apply Forall_forall. intros p Hp.
      apply in_map_iff in Hp. destruct Hp as (y & <- & Hy).
      rewrite Forall_forall in IH. specialize (IH y Hy (S level)).
      pose proof (need_positive y). lia. }
    assert (H2 : list_max (map need l) <= List.length J).
    { apply list_max_le. apply Forall_forall. intros k Hk.
      apply in_map_iff in Hk. destruct Hk as (y & <- & Hy).
      rewrite Forall_forall in IH. specialize (IH y Hy (S level)).
      pose proof (join_length_part
        (item_separator indent ++ newline_indent indent (S level))
        (map (encode indent (S level)) l) _
        (in_map (encode indent (S level)) l y Hy)).
      fold J in H. unfold Py.str in *. lia. }
    unfold Py.str in *. lia.
  - destruct members as [|kv members]; [cbn; lia|].
    set (l := kv :: members) in *. cbn [need].
    change (encode indent level (JObject l))
      with ($"{" ++ newline_indent indent (S level) ++
            Py.join (item_separator indent ++ newline_indent indent (S level))
                    (map (encode_member indent level) l) ++
            newline_indent indent level ++ $"}").
    rewrite !length_app. cbn [List.length Py.lit map list_ascii_of_string].
    set (J := Py.join _ _).
    assert (Hmem : forall y, In y l ->
              need (snd y) <= List.length (encode_member indent level y)).
    { intros y Hy. rewrite Forall_forall in IH.
      specialize (IH y Hy (S level)). unfold encode_member.
      rewrite !length_app. lia. }
    assert (H1 : List.length l <= List.length J).
    { rewrite <- (length_map (encode_member indent level) l).
      apply join_length_count. apply Forall_forall. intros p Hp.
      apply in_map_iff in Hp. destruct Hp as (y & <- & Hy).
      specialize (Hmem y Hy). pose proof (need_positive (snd y)). lia. }
    assert (H2 : list_max (map (fun kv => need (snd kv)) l) <= List.length J).
    { apply list_max_le. apply Forall_forall. intros k Hk.
      apply in_map_iff in Hk. destruct Hk as (y & <- & Hy).
      specialize (Hmem y Hy).
      pose proof (join_length_part
        (item_separator indent ++ newline_indent indent (S level))
        (map (encode_member indent level) l) _
        (in_map (encode_member indent level) l y Hy)).
      fold J in H. unfold Py.str in *. lia. }
    unfold Py.str in *. lia.
Qed.

(** [json.loads(json.dumps(v))] and [json.loads(json.dumps(v, indent=n))]
    give [v] back. *)
Theorem loads_dumps indent v : wf v -> loads (dumps indent v) = Some v.
Proof.
  intros Hwf. unfold loads, dumps.
  rewrite skip_ws_starts_value by apply encode_starts_value.
  rewrite <- (List.app_nil_r (encode indent 0 v)) at 2.
  rewrite scan_once_encode; [reflexivity|exact Hwf| |exact I].
  pose proof (need_le_length indent v 0). lia.
Qed.

(** ** [analyze_file_changes] *)

Section AnalyzeFacts.

Variable run_process : command -> outcome.
Variable context_root : option Py.str.
Variable getcwd : Py.str.

#[local] Abbreviation analyze :=
  (analyze_file_changes run_process context_root getcwd).
#[local] Abbreviation directory :=
  (resolve_working_dir context_root getcwd).

(** The compact dump of the one-key message document. *)
Lemma dumps_no_changes : dumps None no_changes_doc = no_changes_text.
Proof. reflexivity. Qed.

(** One step of [subprocess.run] without [check]. *)
Lemma subprocess_run_exited args dir log status out err :
  run_process (Command args dir) = Exited status out err ->
  subprocess_run run_process false args dir log
    = (Ok {| returncode := status; stdout := out; stderr := err |},
       log ++ [Command args dir]).
Proof. intros H. unfold subprocess_run. rewrite H. reflexivity. Qed.

Lemma subprocess_run_failed args dir log message :
  run_process (Command args dir) = Failed message ->
  subprocess_run run_process false args dir log
    = (Raise (Exception message), log ++ [Command args dir]).
Proof. intros H. unfold subprocess_run. rewrite H. reflexivity. Qed.

Lemma bind_ok {A B} (m : proc A) (k : A -> proc B) log a log' :
  m log = (Ok a, log') -> bind m k log = k a log'.
Proof. intros H. unfold bind. rewrite H. reflexivity. Qed.

Lemma bind_raise {A B} (m : proc A) (k : A -> proc B) log e log' :
  m log = (Raise e, log') -> bind m k log = (Raise e, log').
Proof. intros H. unfold bind. rewrite H. reflexivity. Qed.

(** The [try] block when the first diff is empty. *)
Lemma analyze_try_empty base_branch max_diff_lines dir log status err :
  run_process (diff_command base_branch dir) = Exited status [] err ->
  analyze_try run_process base_branch max_diff_lines dir log
    = (Ok (Return no_changes_text), log ++ [diff_command base_branch dir]).
Proof.
  intros Hdiff. unfold analyze_try.
  erewrite bind_ok by (apply subprocess_run_exited; exact Hdiff).
  reflexivity.
Qed.

(** The [try] block when the four commands run to their end. *)
Lemma analyze_try_continue base_branch max_diff_lines dir log l :
  locals_of max_diff_lines
    (run_process (diff_command base_branch dir))
    (run_process (stat_command base_branch dir))
    (run_process (names_command base_branch dir))
    (run_process (log_command base_branch dir)) = Some l ->
  analyze_try run_process base_branch max_diff_lines dir log
    = (Ok (Continue l),
       log ++ [diff_command base_branch dir; stat_command base_branch dir;
               names_command base_branch dir; log_command base_branch dir]).
Proof.
  destruct (run_process (diff_command base_branch dir))
    as [st1 [|c out1] e1|] eqn:H1; try discriminate.
  destruct (run_process (stat_command base_branch dir))
    as [st2 out2 e2|] eqn:H2; try discriminate.
  destruct (run_process (names_command base_branch dir))
    as [st3 out3 e3|] eqn:H3; try discriminate.
  destruct (run_process (log_command base_branch dir))
    as [st4 out4 e4|] eqn:H4; try discriminate.
  intros Hl. injection Hl as <-. unfold analyze_try.
  erewrite bind_ok by (apply subprocess_run_exited; exact H1).
  cbn [stdout].
  erewrite bind_ok by (apply subprocess_run_exited; exact H2).
  erewrite bind_ok by (apply subprocess_run_exited; exact H3).
  erewrite bind_ok by (apply subprocess_run_exited; exact H4).
  unfold ret. rewrite <- !app_assoc. reflexivity.
Qed.

(** An empty first diff ends the call after one command. *)
Lemma analyze_empty_diff base_branch include_diff max_diff_lines working_dir
      log status err :
  run_process (diff_command base_branch (directory working_dir))
    = Exited status [] err ->
  analyze base_branch include_diff max_diff_lines working_dir log
    = (Ok no_changes_text,
       log ++ [diff_command base_branch (directory working_dir)]).
Proof.
  intros Hdiff. unfold analyze, analyze_file_changes.
  fold (directory working_dir).
  erewrite bind_ok
    by (unfold try_except; erewrite analyze_try_empty by exact Hdiff;
        reflexivity).
  reflexivity.
Qed.

(** When the four commands run to their end and the diff is not empty,
    the call returns the indented dump of the report built from their
    output, after exactly the four commands. *)
Lemma analyze_report base_branch include_diff max_diff_lines working_dir log l :
  locals_of max_diff_lines
    (run_process (diff_command base_branch (directory working_dir)))
    (run_process (stat_command base_branch (directory working_dir)))
    (run_process (names_command base_branch (directory working_dir)))
    (run_process (log_command base_branch (directory working_dir)))
    = Some l ->
  analyze base_branch include_diff max_diff_lines working_dir log
    = (Ok (dumps (Some 2)
             (change_report base_branch include_diff
                (truncated_form (diff_output l) max_diff_lines) l)),
       log ++ [diff_command base_branch (directory working_dir);
               stat_command base_branch (directory working_dir);
               names_command base_branch (directory working_dir);
               log_command base_branch (directory working_dir)]).
Proof.
  intros Hl. unfold analyze, analyze_file_changes.
  fold (directory working_dir).
  erewrite bind_ok
    by (unfold try_except; erewrite analyze_try_continue by exact Hl;
        reflexivity).
  assert (Hshape : diff_lines l = Py.splitlines (diff_output l) /\
                   truncated l =
                   if (Py.len (Py.splitlines (diff_output l)) >? max_diff_lines)%Z
                   then Some (Py.join [Py.LF]
                                (Py.slice_to (Py.splitlines (diff_output l))
                                             max_diff_lines)
                              ++ truncation_marker)
                   else None).
  { unfold locals_of in Hl.
    destruct (run_process (diff_command _ _)) as [? [|? ?] ?|]; try discriminate.
    destruct (run_process (stat_command _ _)); try discriminate.
    destruct (run_process (names_command _ _)); try discriminate.
    destruct (run_process (log_command _ _)); try discriminate.
    injection Hl as <-. split; reflexivity. }
  destruct Hshape as [Hlines Htrunc]. rewrite Hlines, Htrunc.
  unfold truncated_form.
  destruct (Py.len (Py.splitlines (diff_output l)) >? max_diff_lines)%Z;
    reflexivity.
Qed.

(** Every run of the [try] block ends in one of three ways: the early
    return of the message, an exception that is no [CalledProcessError],
    or the locals of a report. *)
Lemma analyze_try_cases base_branch max_diff_lines dir log :
  exists log',
    analyze_try run_process base_branch max_diff_lines dir log
      = (Ok (Return no_changes_text), log') \/
    (exists message,
        analyze_try run_process base_branch max_diff_lines dir log
          = (Raise (Exception message), log')) \/
    (exists l,
        locals_of max_diff_lines
          (run_process (diff_command base_branch dir))
          (run_process (stat_command base_branch dir))
          (run_process (names_command base_branch dir))
          (run_process (log_command base_branch dir)) = Some l /\
        analyze_try run_process base_branch max_diff_lines dir log
          = (Ok (Continue l), log')).
Proof.
  destruct (locals_of max_diff_lines
              (run_process (diff_command base_branch dir))
              (run_process (stat_command base_branch dir))
              (run_process (names_command base_branch dir))
              (run_process (log_command base_branch dir))) as [l|] eqn:Hl.
  { eexists. right. right. exists l. split; [reflexivity|].
    apply analyze_try_continue. exact Hl. }
  unfold locals_of in Hl.
  destruct (run_process (diff_command base_branch dir))
    as [st1 out1 e1|m1] eqn:H1.
  2:{ eexists. right. left. exists m1. unfold analyze_try.
      erewrite bind_raise by (apply subprocess_run_failed; exact H1).
      reflexivity. }
  destruct out1 as [|c out1].
  { eexists. left. eapply analyze_try_empty. exact H1. }
  destruct (run_process (stat_command base_branch dir))
    as [st2 out2 e2|m2] eqn:H2.
  2:{ eexists. right. left. exists m2. unfold analyze_try.
      erewrite bind_ok by (apply subprocess_run_exited; exact H1).
      cbn [stdout].
      erewrite bind_raise by (apply subprocess_run_failed; exact H2).
      reflexivity. }
  destruct (run_process (names_command base_branch dir))
    as [st3 out3 e3|m3] eqn:H3.
  2:{ eexists. right. left. exists m3. unfold analyze_try.
      erewrite bind_ok by (apply subprocess_run_exited; exact H1).
      cbn [stdout].
      erewrite bind_ok by (apply subprocess_run_exited; exact H2).
      erewrite bind_raise by (apply subprocess_run_failed; exact H3).
      reflexivity. }
  destruct (run_process (log_command base_branch dir))
    as [st4 out4 e4|m4] eqn:H4; [discriminate|].
  eexists. right. left. exists m4. unfold analyze_try.
  erewrite bind_ok by (apply subprocess_run_exited; exact H1).
  cbn [stdout].
  erewrite bind_ok by (apply subprocess_run_exited; exact H2).
  erewrite bind_ok by (apply subprocess_run_exited; exact H3).
  erewrite bind_raise by (apply subprocess_run_failed; exact H4).
  reflexivity.
Qed.

(** The call never raises, and its text has one of three shapes. *)
Lemma analyze_cases base_branch include_diff max_diff_lines working_dir log :
  exists text log',
    analyze base_branch include_diff max_diff_lines working_dir log
      = (Ok text, log') /\
    (text = dumps None no_changes_doc \/
     (exists message, text = dumps None (error_doc message)) \/
     (exists l,
         locals_of max_diff_lines
           (run_process (diff_command base_branch (directory working_dir)))
           (run_process (stat_command base_branch (directory working_dir)))
           (run_process (names_command base_branch (directory working_dir)))
           (run_process (log_command base_branch (directory working_dir)))
           = Some l /\
         text = dumps (Some 2)
                  (change_report base_branch include_diff
                     (truncated_form (diff_output l) max_diff_lines) l))).
Proof.
  destruct (analyze_try_cases base_branch max_diff_lines
              (directory working_dir) log)
    as [log' [Hmsg | [[message Herr] | [l [Hl Hcont]]]]].
  - exists no_changes_text, log'. split; [|left; reflexivity].
    unfold analyze, analyze_file_changes. fold (directory working_dir).
    erewrite bind_ok by (unfold try_except; rewrite Hmsg; reflexivity).
    reflexivity.
  - exists (dumps None (error_doc message)), log'.
    split; [|right; left; exists message; reflexivity].
    unfold analyze, analyze_file_changes. fold (directory working_dir).
    erewrite bind_ok by (unfold try_except; rewrite Herr; reflexivity).
    reflexivity.
  - eexists. eexists. split; [apply analyze_report; exact Hl|].
    right. right. exists l. split; [exact Hl|reflexivity].
Qed.

End AnalyzeFacts.


(** ** The claims about [analyze_file_changes] *)

Section AnalyzeClaims.

Variable run_process : command -> outcome.
Variable context_root : option Py.str.
Variable getcwd : Py.str.

#[local] Abbreviation analyze :=
  (analyze_file_changes run_process context_root getcwd).
#[local] Abbreviation directory :=
  (resolve_working_dir context_root getcwd).

(** The locals of a run in which the four commands are answered. *)
Lemma locals_of_answers max_diff_lines base_branch dir diff stat names commits :
  answers run_process (diff_command base_branch dir) diff ->
  diff <> [] ->
  answers run_process (stat_command base_branch dir) stat ->
  answers run_process (names_command base_branch dir) names ->
  answers run_process (log_command base_branch dir) commits ->
  exists l,
    locals_of max_diff_lines
      (run_process (diff_command base_branch dir))
      (run_process (stat_command base_branch dir))
      (run_process (names_command base_branch dir))
      (run_process (log_command base_branch dir)) = Some l /\
    diff_output l = diff /\
    diff_lines l = Py.splitlines diff /\
    stdout (stats_result l) = stat /\
    changed_files l = Py.splitlines (Py.strip names) /\
    stdout (commits_result l) = commits.
Proof.
  intros (s1 & e1 & H1) Hne (s2 & e2 & H2) (s3 & e3 & H3) (s4 & e4 & H4).
  rewrite H1, H2, H3, H4. destruct diff as [|c diff]; [congruence|].
  eexists. split; [reflexivity|]. cbn. repeat split; reflexivity.
Qed.

(** C2: when the first diff query writes nothing, the call returns the
    text [{"message": "No changes detected."}], the compact dump of the
    one-key message document, and the only command it starts is that
    diff: the stat, name-only and log queries are not issued. *)
Theorem empty_diff_short_circuits base_branch include_diff max_diff_lines
    working_dir log :
  answers run_process (diff_command base_branch (directory working_dir)) [] ->
  analyze base_branch include_diff max_diff_lines working_dir log
    = (Ok no_changes_text,
       log ++ [diff_command base_branch (directory working_dir)]) /\
  no_changes_text = dumps None no_changes_doc.
Proof.
  intros (status & err & Hdiff). split; [|reflexivity].
  eapply analyze_empty_diff. exact Hdiff.
Qed.

(** C5: in a call that returns a report, [total_diff_lines] is 0 when
    [include_diff] is false, whatever the diff, and the number of lines of
    the diff output when [include_diff] is true. *)
Theorem total_diff_lines_follows_include_diff base_branch include_diff
    max_diff_lines working_dir log diff stat names commits :
  answers run_process (diff_command base_branch (directory working_dir)) diff ->
  diff <> [] ->
  answers run_process (stat_command base_branch (directory working_dir)) stat ->
  answers run_process (names_command base_branch (directory working_dir)) names ->
  answers run_process (log_command base_branch (directory working_dir)) commits ->
  exists report log',
    analyze base_branch include_diff max_diff_lines working_dir log
      = (Ok (dumps (Some 2) report), log') /\
    keys report = report_keys /\
    field $"total_diff_lines" report
      = Some (JInt (if include_diff then Py.len (Py.splitlines diff) else 0%Z)).
Proof.
  intros Hd Hne Hs Hn Hc.
  destruct (locals_of_answers max_diff_lines _ _ _ _ _ _ Hd Hne Hs Hn Hc)
    as (l & Hl & Hdiff & Hlines & _).
  eexists. eexists. split; [apply analyze_report; exact Hl|].
  split; [reflexivity|]. cbn. rewrite Hlines. reflexivity.
Qed.

(** The first [stop] items of a list, for a [stop] that is not negative. *)
Lemma slice_to_firstn {A} (xs : list A) (stop : Z) :
  (0 <= stop)%Z -> Py.slice_to xs stop = firstn (Z.to_nat stop) xs.
Proof.
  intros H. unfold Py.slice_to.
  destruct (stop <? 0)%Z eqn:E; [apply Z.ltb_lt in E; lia|reflexivity].
Qed.

(** C3, amended: for a limit [M] that is not negative and a diff of [L]
    lines, when [L > M] the [truncated] key holds the first [M] lines of
    the diff, joined by line breaks, followed by the marker; when
    [L <= M] it holds the stripped diff output, which is also the value
    of the [diff] key when [include_diff] is true. *)
Theorem truncated_field_for_nonnegative_limit base_branch include_diff
    max_diff_lines working_dir log diff stat names commits :
  (0 <= max_diff_lines)%Z ->
  answers run_process (diff_command base_branch (directory working_dir)) diff ->
  diff <> [] ->
  answers run_process (stat_command base_branch (directory working_dir)) stat ->
  answers run_process (names_command base_branch (directory working_dir)) names ->
  answers run_process (log_command base_branch (directory working_dir)) commits ->
  exists report log',
    analyze base_branch include_diff max_diff_lines working_dir log
      = (Ok (dumps (Some 2) report), log') /\
    keys report = report_keys /\
    ((Py.len (Py.splitlines diff) > max_diff_lines)%Z ->
     List.length (firstn (Z.to_nat max_diff_lines) (Py.splitlines diff))
       = Z.to_nat max_diff_lines /\
     field $"truncated" report
       = Some (JString
                 (Py.join [Py.LF]
                    (firstn (Z.to_nat max_diff_lines) (Py.splitlines diff))
                  ++ truncation_marker))) /\
    ((Py.len (Py.splitlines diff) <= max_diff_lines)%Z ->
     field $"truncated" report = Some (JString (Py.strip diff)) /\
     (include_diff = true ->
      field $"diff" report = field $"truncated" report)).
Proof.
  intros HM Hd Hne Hs Hn Hc.
  destruct (locals_of_answers max_diff_lines _ _ _ _ _ _ Hd Hne Hs Hn Hc)
    as (l & Hl & Hdiff & Hlines & _).
  eexists. eexists. split; [apply analyze_report; exact Hl|].
  split; [reflexivity|]. rewrite Hdiff. unfold truncated_form. split.
  - intros HL. split.
    + apply firstn_length_le. unfold Py.len in HL. lia.
    + cbn. apply Z.gt_lt, Z.gtb_lt in HL. rewrite HL.
      rewrite slice_to_firstn by exact HM. reflexivity.
  - intros HL. cbn.
    destruct (Py.len (Py.splitlines diff) >? max_diff_lines)%Z eqn:E;
      [apply Z.gtb_lt in E; lia|].
    split; [reflexivity|]. intros ->. rewrite Hdiff. reflexivity.
Qed.

(** C9, amended: in every report [files_changed] is the list of the lines
    of the stripped name-only output, in order, and [commits] is one
    string, the stripped output of the log query, with its commit lines
    separated by line breaks. *)
Theorem files_changed_list_and_commits_text base_branch include_diff
    max_diff_lines working_dir log diff stat names commits :
  answers run_process (diff_command base_branch (directory working_dir)) diff ->
  diff <> [] ->
  answers run_process (stat_command base_branch (directory working_dir)) stat ->
  answers run_process (names_command base_branch (directory working_dir)) names ->
  answers run_process (log_command base_branch (directory working_dir)) commits ->
  exists report log',
    analyze base_branch include_diff max_diff_lines working_dir log
      = (Ok (dumps (Some 2) report), log') /\
    keys report = report_keys /\
    field $"files_changed" report
      = Some (JArray (map JString (Py.splitlines (Py.strip names)))) /\
    field $"commits" report = Some (JString (Py.strip commits)).
Proof.
  intros Hd Hne Hs Hn Hc.
  destruct (locals_of_answers max_diff_lines _ _ _ _ _ _ Hd Hne Hs Hn Hc)
    as (l & Hl & Hdiff & Hlines & Hstat & Hfiles & Hcommits).
  eexists. eexists. split; [apply analyze_report; exact Hl|].
  split; [reflexivity|]. cbn. rewrite Hfiles, Hcommits. split; reflexivity.
Qed.

(** C10: two calls that differ only in [include_diff] return reports with
    the same [truncated] value, the truncated or the stripped diff
    output, and the same value under every key other than [diff] and
    [total_diff_lines], after the same four commands. *)
Theorem include_diff_leaves_truncated base_branch max_diff_lines working_dir
    log diff stat names commits :
  answers run_process (diff_command base_branch (directory working_dir)) diff ->
  diff <> [] ->
  answers run_process (stat_command base_branch (directory working_dir)) stat ->
  answers run_process (names_command base_branch (directory working_dir)) names ->
  answers run_process (log_command base_branch (directory working_dir)) commits ->
  exists shown hidden log',
    analyze base_branch true max_diff_lines working_dir log
      = (Ok (dumps (Some 2) shown), log') /\
    analyze base_branch false max_diff_lines working_dir log
      = (Ok (dumps (Some 2) hidden), log') /\
    keys shown = report_keys /\
    keys hidden = report_keys /\
    field $"truncated" shown
      = Some (JString (truncated_form diff max_diff_lines)) /\
    field $"truncated" hidden
      = Some (JString (truncated_form diff max_diff_lines)) /\
    (forall key, key <> $"diff" -> key <> $"total_diff_lines" ->
                 field key shown = field key hidden) /\
    field $"diff" hidden
      = Some (JString $"Use include_diff=True to see the diff.") /\
    field $"total_diff_lines" hidden = Some (JInt 0).
Proof.
  intros Hd Hne Hs Hn Hc.
  destruct (locals_of_answers max_diff_lines _ _ _ _ _ _ Hd Hne Hs Hn Hc)
    as (l & Hl & Hdiff & _).
  eexists. eexists. eexists.
  split; [apply analyze_report; exact Hl|].
  split; [apply analyze_report; exact Hl|].
  rewrite Hdiff. repeat (split; [reflexivity|]).
  split; [|split; reflexivity].
  intros key Hk1 Hk2. unfold change_report, field, dict_get.
  repeat match goal with
         | |- context [Py.eqb ?a key] =>
             destruct (Py.eqb a key) eqn:?; [reflexivity|]
         end.
  - unfold Py.eqb in *.
    destruct (list_eq_dec N.eq_dec $"diff" key); [congruence|].
    destruct (list_eq_dec N.eq_dec $"total_diff_lines" key); [congruence|].
    reflexivity.
Qed.

(** The text of a call does not depend on any exit status: it is the text
    of the same call with every status replaced by zero. *)
Lemma analyze_ignores_exit_status base_branch include_diff max_diff_lines
    working_dir log :
  analyze base_branch include_diff max_diff_lines working_dir log
    = analyze_file_changes (with_status_zero run_process) context_root getcwd
        base_branch include_diff max_diff_lines working_dir log.
Proof.
  unfold analyze_file_changes, try_except, analyze_try, bind, subprocess_run,
    with_status_zero.
  repeat match goal with
         | |- context [match run_process ?c with _ => _ end] =>
             destruct (run_process c) as [? [|? ?] ?|]; cbn; try reflexivity
         end.
  all: destruct (Py.len _ >? max_diff_lines)%Z; reflexivity.
Qed.

End AnalyzeClaims.

(** ** Concrete runs of [analyze_file_changes] *)

(** [git_sample] answers the four queries on [main] in [/repo]. *)
Lemma git_sample_answers :
  answers git_sample (diff_command $"main" $"/repo") sample_diff /\
  sample_diff <> [] /\
  answers git_sample (stat_command $"main" $"/repo") sample_stat /\
  answers git_sample (names_command $"main" $"/repo") sample_names /\
  answers git_sample (log_command $"main" $"/repo") sample_log.
Proof.
  repeat split; try (exists 0%Z, []; reflexivity). discriminate.
Defined.

(** A clean branch: the message after the one diff command. *)
Lemma empty_diff_short_circuits_on_clean_branch :
  answers git_clean (diff_command $"main" $"/repo") [] /\
  analyze_file_changes git_clean None $"/repo" $"main" true 500 None []
    = (Ok no_changes_text, [diff_command $"main" $"/repo"]) /\
  no_changes_text = dumps None no_changes_doc.
Proof.
  assert (H : answers git_clean (diff_command $"main" $"/repo") [])
    by (exists 0%Z, []; reflexivity).
  split; [exact H|].
  exact (empty_diff_short_circuits git_clean None $"/repo" $"main" true 500
           None [] H).
Defined.

(** The sample branch with [include_diff] false: the report says 0 lines
    though the diff has two. *)
Lemma total_diff_lines_on_sample :
  exists report log',
    analyze_file_changes git_sample None $"/repo" $"main" false 500 None []
      = (Ok (dumps (Some 2) report), log') /\
    keys report = report_keys /\
    field $"total_diff_lines" report
      = Some (JInt (if false then Py.len (Py.splitlines sample_diff) else 0%Z)).
Proof.
  destruct git_sample_answers as (Hd & Hne & Hs & Hn & Hc).
  exact (total_diff_lines_follows_include_diff git_sample None $"/repo"
           $"main" false 500 None [] _ _ _ _ Hd Hne Hs Hn Hc).
Defined.

(** The sample branch with a limit of one line. *)
Lemma truncated_field_on_sample :
  (0 <= 1)%Z /\
  exists report log',
    analyze_file_changes git_sample None $"/repo" $"main" true 1 None []
      = (Ok (dumps (Some 2) report), log') /\
    keys report = report_keys /\
    ((Py.len (Py.splitlines sample_diff) > 1)%Z ->
     List.length (firstn (Z.to_nat 1) (Py.splitlines sample_diff))
       = Z.to_nat 1 /\
     field $"truncated" report
       = Some (JString
                 (Py.join [Py.LF]
                    (firstn (Z.to_nat 1) (Py.splitlines sample_diff))
                  ++ truncation_marker))) /\
    ((Py.len (Py.splitlines sample_diff) <= 1)%Z ->
     field $"truncated" report = Some (JString (Py.strip sample_diff)) /\
     (true = true -> field $"diff" report = field $"truncated" report)).
Proof.
  destruct git_sample_answers as (Hd & Hne & Hs & Hn & Hc).
  split; [lia|].
  exact (truncated_field_for_nonnegative_limit git_sample None $"/repo"
           $"main" true 1 None [] _ _ _ _ ltac:(lia) Hd Hne Hs Hn Hc).
Defined.

(** With the limit -1 the two-line sample diff counts as too long, and
    the [truncated] key keeps its first line before the marker: not the
    first -1 lines, which are none. *)
Lemma negative_limit_keeps_a_line :
  exists text report,
    fst (analyze_file_changes git_sample None $"/repo" $"main" true (-1)
           None []) = Ok text /\
    loads text = Some report /\
    (Py.len (Py.splitlines sample_diff) > -1)%Z /\
    field $"truncated" report = Some (JString ($"-old" ++ truncation_marker)) /\
    field $"truncated" report
      <> Some (JString
                 (Py.join [Py.LF]
                    (firstn (Z.to_nat (-1)) (Py.splitlines sample_diff))
                  ++ truncation_marker)).
Proof.
  eexists. eexists. split; [vm_compute; reflexivity|].
  split; [vm_compute; reflexivity|].
  split; [vm_compute; reflexivity|].
  split; [vm_compute; reflexivity|].
  vm_compute. discriminate.
Qed.

(** The sample branch: a list of files and one text of commits. *)
Lemma files_and_commits_on_sample :
  exists report log',
    analyze_file_changes git_sample None $"/repo" $"main" true 500 None []
      = (Ok (dumps (Some 2) report), log') /\
    keys report = report_keys /\
    field $"files_changed" report
      = Some (JArray (map JString (Py.splitlines (Py.strip sample_names)))) /\
    field $"commits" report = Some (JString (Py.strip sample_log)).
Proof.
  destruct git_sample_answers as (Hd & Hne & Hs & Hn & Hc).
  exact (files_changed_list_and_commits_text git_sample None $"/repo"
           $"main" true 500 None [] _ _ _ _ Hd Hne Hs Hn Hc).
Defined.

(** On the sample branch the log has two commits and [commits] is one
    JSON string holding both lines, not an array with an element per
    commit. *)
Lemma commits_is_not_a_sequence :
  exists text report,
    fst (analyze_file_changes git_sample None $"/repo" $"main" true 500
           None []) = Ok text /\
    loads text = Some report /\
    Py.splitlines sample_log = [$"abc1234 second"; $"def5678 first"] /\
    field $"commits" report
      = Some (JString ($"abc1234 second" ++ Py.LF :: $"def5678 first")) /\
    forall items, field $"commits" report <> Some (JArray items).
Proof.
  eexists. eexists. split; [vm_compute; reflexivity|].
  split; [vm_compute; reflexivity|].
  split; [reflexivity|].
  split; [vm_compute; reflexivity|].
  intros items. vm_compute. discriminate.
Qed.

(** The sample branch with and without the diff. *)
Lemma include_diff_on_sample :
  exists shown hidden log',
    analyze_file_changes git_sample None $"/repo" $"main" true 1 None []
      = (Ok (dumps (Some 2) shown), log') /\
    analyze_file_changes git_sample None $"/repo" $"main" false 1 None []
      = (Ok (dumps (Some 2) hidden), log') /\
    keys shown = report_keys /\
    keys hidden = report_keys /\
    field $"truncated" shown = Some (JString (truncated_form sample_diff 1)) /\
    field $"truncated" hidden = Some (JString (truncated_form sample_diff 1)) /\
    (forall key, key <> $"diff" -> key <> $"total_diff_lines" ->
                 field key shown = field key hidden) /\
    field $"diff" hidden
      = Some (JString $"Use include_diff=True to see the diff.") /\
    field $"total_diff_lines" hidden = Some (JInt 0).
Proof.
  destruct git_sample_answers as (Hd & Hne & Hs & Hn & Hc).
  exact (include_diff_leaves_truncated git_sample None $"/repo" $"main" 1
           None [] _ _ _ _ Hd Hne Hs Hn Hc).
Defined.

(** C1 on the code: a base branch git does not know makes the diff exit
    with status 128 and an empty output, and the call returns the
    no-changes message, not an error; and when the three later queries
    exit with status 1 the call still returns a report of seven keys with
    no [error] key.  No exit status reaches the handlers. *)
Lemma nonzero_exit_status_is_not_an_error :
  analyze_file_changes git_unknown_branch None $"/repo" $"nope" true 500
    None []
    = (Ok no_changes_text, [diff_command $"nope" $"/repo"]) /\
  exists text report,
    fst (analyze_file_changes git_later_fail None $"/repo" $"main" true 500
           None []) = Ok text /\
    loads text = Some report /\
    keys report = report_keys /\
    field $"error" report = None /\
    field $"statistics" report = Some (JString []) /\
    field $"commits" report = Some (JString []).
Proof.
  split; [vm_compute; reflexivity|].
  eexists. eexists. split; [vm_compute; reflexivity|].
  split; [vm_compute; reflexivity|].
  repeat split; vm_compute; reflexivity.
Qed.

(** ** The template tools *)

Section TemplateFacts.

Variable read_text : Py.str -> result Py.str.
Variable lower : Py.str -> Py.str.

(** The list comprehension reads the table in order. *)
Lemma read_templates_ok table :
  (forall filename, In filename (map fst table) ->
                    exists content, read_text filename = Ok content) ->
  exists records,
    read_templates read_text table = Ok records /\
    Forall2 (record_of read_text) table records.
Proof.
  induction table as [|[filename template_type] table IH]; intros Hall.
  - exists []. split; [reflexivity|constructor].
  - destruct (Hall filename (or_introl eq_refl)) as [content Hc].
    destruct IH as (records & Hr & HF).
    { intros f Hf. apply Hall. right. exact Hf. }
    exists (template_record filename template_type content :: records).
    split.
    + cbn [read_templates]. rewrite Hc. cbn [result_bind]. rewrite Hr.
      reflexivity.
    + constructor; [|exact HF]. exists content. split; [exact Hc|reflexivity].
Qed.

(** Whatever the list comprehension returns is the table's records. *)
Lemma read_templates_inv table : forall records,
  read_templates read_text table = Ok records ->
  Forall2 (record_of read_text) table records.
Proof.
  induction table as [|[filename template_type] table IH]; intros records.
  - cbn. intros H. injection H as <-. constructor.
  - cbn [read_templates].
    destruct (read_text filename) as [content|e] eqn:Hc; [|discriminate].
    cbn [result_bind].
    destruct (read_templates read_text table) as [rest|e] eqn:Hr;
      [|discriminate].
    cbn [result_bind]. intros H. injection H as <-.
    constructor; [|apply IH; reflexivity].
    exists content. split; [exact Hc|reflexivity].
Qed.

(** A file of the table that cannot be read makes the listing raise. *)
Lemma read_templates_raises table filename e :
  In filename (map fst table) ->
  read_text filename = Raise e ->
  exists e', read_templates read_text table = Raise e'.
Proof.
  induction table as [|[f t] table IH]; [contradiction|].
  intros [Heq | Hin] He; cbn [read_templates].
  - cbn [fst] in Heq. subst f. rewrite He. exists e. reflexivity.
  - destruct (read_text f); [|eexists; reflexivity]. cbn [result_bind].
    destruct (IH Hin He) as [e' ->]. exists e'. reflexivity.
Qed.

(** The first record named [template_file] is the one the generator
    yields. *)
Lemma next_match_table table : forall records default template_file,
  Forall2 (record_of read_text) table records ->
  In template_file (map fst table) ->
  exists template_type content,
    In (template_file, template_type) table /\
    read_text template_file = Ok content /\
    next_match records template_file default
      = Ok (template_record template_file template_type content).
Proof.
  induction table as [|[filename ty] table IH];
    intros records default template_file HF Hin; [contradiction|].
  inversion HF as [|? record ? records' (content & Hc & ->) HF']; subst.
  cbn [fst snd] in Hc |- *. cbn [next_match].
  change (field $"filename" (template_record filename ty content))
    with (Some (JString filename)).
  cbv iota. unfold Py.eqb at 1.
  destruct (list_eq_dec N.eq_dec filename template_file) as [<-|Hneq].
  - exists ty, content. split; [left; reflexivity|]. split; [exact Hc|].
    reflexivity.
  - destruct Hin as [Heq | Hin]; [contradiction|].
    destruct (IH records' default template_file HF' Hin)
      as (ty' & c' & Hin' & Hc' & Hnext).
    exists ty', c'. split; [right; exact Hin'|]. split; assumption.
Qed.

(** Every file name the mapping can resolve to is in the table. *)
Lemma resolved_in_table key :
  In (get_default TYPE_MAPPING key $"feature.md") (map fst DEFAULT_TEMPLATES).
Proof.
  unfold TYPE_MAPPING. cbn [get_default].
  repeat match goal with
         | |- context [Py.eqb ?k key] =>
             destruct (Py.eqb k key);
             [cbn; repeat first [left; reflexivity | right]|]
         end.
  cbn. repeat first [left; reflexivity | right].
Qed.

Lemma get_default_missing table key default :
  ~ In key (map fst table) -> get_default table key default = default.
Proof.
  induction table as [|[k v] table IH]; intros Hin; [reflexivity|].
  cbn [get_default]. unfold Py.eqb.
  destruct (list_eq_dec N.eq_dec k key) as [->|Hneq].
  - exfalso. apply Hin. left. reflexivity.
  - apply IH. intros H. apply Hin. right. exact H.
Qed.

(** An ASCII literal is a well-formed string. *)
Lemma lit_wf s : wf_str (Py.lit s).
Proof.
  unfold wf_str, Py.lit. apply Forall_forall. intros c Hc.
  apply in_map_iff in Hc. destruct Hc as (a & <- & _).
  left. pose proof (N_ascii_bounded a). lia.
Qed.

(** The literals of the table are well-formed strings. *)
Lemma table_strings_wf :
  Forall (fun entry => wf_str (fst entry) /\ wf_str (snd entry))
         DEFAULT_TEMPLATES.
Proof.
  unfold DEFAULT_TEMPLATES.
  repeat (constructor; [split; apply lit_wf|]). constructor.
Qed.

Lemma template_record_wf filename template_type content :
  wf_str filename -> wf_str template_type -> wf_str content ->
  wf (template_record filename template_type content).
Proof.
  intros Hf Ht Hc. unfold template_record. constructor.
  - cbn. repeat constructor; cbn; intros H;
      repeat (destruct H as [H|H]; try discriminate H); exact H.
  - repeat (constructor;
            [split; [apply lit_wf|constructor; assumption]|]).
    constructor.
Qed.

Lemma records_wf table : forall records,
  (forall filename content,
      In filename (map fst table) ->
      read_text filename = Ok content -> wf_str content) ->
  Forall (fun entry => wf_str (fst entry) /\ wf_str (snd entry)) table ->
  Forall2 (record_of read_text) table records ->
  wf (JArray records).
Proof.
  intros records Hdec Htable HF. constructor. revert Hdec Htable.
  induction HF as [|entry record table records (content & Hc & ->) _ IH];
    intros Hdec Htable; [constructor|].
  inversion Htable as [|? ? [Hf Ht] Htable']; subst.
  constructor.
  - apply template_record_wf; [exact Hf|exact Ht|].
    apply (Hdec (fst entry)); [left; reflexivity|exact Hc].
  - apply IH; [|exact Htable'].
    intros f c Hin. apply Hdec. right. exact Hin.
Qed.

(** With every template file in place, [suggest_template] returns the
    indented dump of the suggestion built from the record the mapping
    resolves to. *)
Lemma suggest_template_provisioned changes_summary change_type :
  provisioned read_text ->
  decoded_text read_text ->
  exists template_type content,
    In (get_default TYPE_MAPPING (lower change_type) $"feature.md",
        template_type) DEFAULT_TEMPLATES /\
    read_text (get_default TYPE_MAPPING (lower change_type) $"feature.md")
      = Ok content /\
    suggest_template read_text lower changes_summary change_type
      = Ok (dumps (Some 2)
              (suggestion
                 (template_record
                    (get_default TYPE_MAPPING (lower change_type) $"feature.md")
                    template_type content)
                 (JString content) changes_summary change_type)).
Proof.
  intros Hprov Hdec.
  destruct (read_templates_ok DEFAULT_TEMPLATES Hprov) as (records & Hr & HF).
  pose proof (records_wf _ _ Hdec table_strings_wf HF) as Hwf.
  set (template_file :=
         get_default TYPE_MAPPING (lower change_type) $"feature.md").
  assert (Hrecords : exists first others, records = first :: others).
  { inversion HF; subst. eexists. eexists. reflexivity. }
  destruct Hrecords as (first & others & Hrecords).
  destruct (next_match_table DEFAULT_TEMPLATES records first template_file HF
              (resolved_in_table (lower change_type)))
    as (ty & content & Hin & Hc & Hnext).
  exists ty, content. split; [exact Hin|]. split; [exact Hc|].
  unfold suggest_template, get_pr_templates. rewrite Hr. cbn [result_bind].
  rewrite loads_dumps by exact Hwf. fold template_file.
  rewrite Hrecords in *. rewrite Hnext. cbn [result_bind]. reflexivity.
Qed.

(** Whatever [suggest_template] returns is the indented dump of a
    suggestion. *)
Lemma suggest_template_inv changes_summary change_type text :
  suggest_template read_text lower changes_summary change_type = Ok text ->
  exists selected_template content,
    text = dumps (Some 2)
             (suggestion selected_template content
                         changes_summary change_type).
Proof.
  unfold suggest_template.
  destruct (get_pr_templates read_text) as [response|e]; [|discriminate].
  cbn [result_bind].
  destruct (loads response) as [[| | | |[|first others]|]|]; try discriminate.
  destruct (next_match _ _ _) as [selected|e]; [|discriminate].
  cbn [result_bind].
  destruct (field $"content" selected) as [content|]; [|discriminate].
  intros H. injection H as <-. exists selected, content. reflexivity.
Qed.

End TemplateFacts.

(** ** The claims about the template tools and the output encoding *)

Section TemplateClaims.

Variable read_text : Py.str -> result Py.str.
Variable lower : Py.str -> Py.str.

(** C6: every list [get_pr_templates] returns is the indented dump of
    one record per entry of [DEFAULT_TEMPLATES], in the order of the
    table; each record carries the entry's file name and label, and under
    [content] the text [read_text] gives for that file at the time of the
    call.  With the template files in place the tool does return it. *)
Theorem get_pr_templates_lists_the_table :
  (forall text,
      get_pr_templates read_text = Ok text ->
      exists records,
        text = dumps (Some 2) (JArray records) /\
        List.length records = List.length DEFAULT_TEMPLATES /\
        Forall2
          (fun entry record =>
             exists content,
               read_text (fst entry) = Ok content /\
               keys record = [$"filename"; $"type"; $"content"] /\
               field $"filename" record = Some (JString (fst entry)) /\
               field $"type" record = Some (JString (snd entry)) /\
               field $"content" record = Some (JString content))
          DEFAULT_TEMPLATES records) /\
  (provisioned read_text ->
   exists text, get_pr_templates read_text = Ok text).
Proof.
  split.
  - intros text. unfold get_pr_templates.
    destruct (read_templates read_text DEFAULT_TEMPLATES) as [records|e] eqn:Hr;
      [|discriminate].
    cbn [result_bind]. intros H. injection H as <-.
    pose proof (read_templates_inv read_text _ _ Hr) as HF.
    exists records. split; [reflexivity|].
    split; [symmetry; eapply Forall2_length; exact HF|].
    eapply Forall2_impl; [|exact HF].
    intros entry record (content & Hc & ->). exists content.
    split; [exact Hc|]. repeat split.
  - intros Hprov.
    destruct (read_templates_ok read_text DEFAULT_TEMPLATES Hprov)
      as (records & Hr & _).
    eexists. unfold get_pr_templates. rewrite Hr. reflexivity.
Qed.

(** C7: with [lower] acting on ASCII strings as [str.lower] does, the
    categories [fix] and [bug] both resolve to [bug.md], and a category
    whose lower-case form is no key of [TYPE_MAPPING], such as
    [unknown-xyz], resolves to [feature.md]; with the template files in
    place, the recommendations returned for [fix] and for [bug] carry the
    same record, the one of [bug.md], and the recommendation for a
    category outside the mapping carries the record of [feature.md]. *)
Theorem fix_and_bug_resolve_alike_unknown_to_feature changes_summary :
  lowers_ascii lower ->
  get_default TYPE_MAPPING (lower $"fix") $"feature.md" = $"bug.md" /\
  get_default TYPE_MAPPING (lower $"bug") $"feature.md" = $"bug.md" /\
  ~ In (lower $"unknown-xyz") (map fst TYPE_MAPPING) /\
  (forall change_type,
      ~ In (lower change_type) (map fst TYPE_MAPPING) ->
      get_default TYPE_MAPPING (lower change_type) $"feature.md"
        = $"feature.md") /\
  (provisioned read_text -> decoded_text read_text ->
   (exists record content,
       read_text $"bug.md" = Ok content /\
       record = template_record $"bug.md" $"Bug Fix" content /\
       suggest_template read_text lower changes_summary $"fix"
         = Ok (dumps (Some 2)
                 (suggestion record (JString content)
                             changes_summary $"fix")) /\
       suggest_template read_text lower changes_summary $"bug"
         = Ok (dumps (Some 2)
                 (suggestion record (JString content)
                             changes_summary $"bug"))) /\
   (forall change_type,
       ~ In (lower change_type) (map fst TYPE_MAPPING) ->
       exists record content,
         read_text $"feature.md" = Ok content /\
         record = template_record $"feature.md" $"Feature" content /\
         suggest_template read_text lower changes_summary change_type
           = Ok (dumps (Some 2)
                   (suggestion record (JString content)
                               changes_summary change_type)))).
Proof.
  intros Hlower. unfold lowers_ascii in Hlower.
  assert (Hfix : lower $"fix" = $"fix")
    by (rewrite Hlower; [reflexivity|repeat constructor]).
  assert (Hbug : lower $"bug" = $"bug")
    by (rewrite Hlower; [reflexivity|repeat constructor]).
  assert (Hunknown : lower $"unknown-xyz" = $"unknown-xyz")
    by (rewrite Hlower; [reflexivity|repeat constructor]).
  assert (Hlabel : forall f ty, In (f, ty) DEFAULT_TEMPLATES ->
            (f = $"bug.md" -> ty = $"Bug Fix") /\
            (f = $"feature.md" -> ty = $"Feature")).
  { intros f ty Hin. cbn in Hin.
    repeat (destruct Hin as [Hin|Hin];
            [injection Hin as <- <-; split; intros H;
             (reflexivity || discriminate H)|]).
    contradiction. }
  split; [rewrite Hfix; reflexivity|].
  split; [rewrite Hbug; reflexivity|].
  split.
  { rewrite Hunknown. cbn. intros H.
    repeat (destruct H as [H|H]; [discriminate H|]). exact H. }
  split; [intros change_type; apply get_default_missing|].
  intros Hprov Hdec. split.
  - destruct (suggest_template_provisioned read_text lower changes_summary
                $"fix" Hprov Hdec) as (ty1 & c1 & Hin1 & Hc1 & Hs1).
    destruct (suggest_template_provisioned read_text lower changes_summary
                $"bug" Hprov Hdec) as (ty2 & c2 & Hin2 & Hc2 & Hs2).
    rewrite Hfix in *. rewrite Hbug in *.
    change (get_default TYPE_MAPPING $"fix" $"feature.md")
      with ($"bug.md") in *.
    change (get_default TYPE_MAPPING $"bug" $"feature.md")
      with ($"bug.md") in *.
    destruct (Hlabel _ _ Hin1) as [Hty1 _]. specialize (Hty1 eq_refl).
    destruct (Hlabel _ _ Hin2) as [Hty2 _]. specialize (Hty2 eq_refl).
    subst ty1 ty2.
    assert (c2 = c1) by congruence. subst c2.
    eexists. exists c1. split; [exact Hc1|]. split; [reflexivity|].
    split; assumption.
  - intros change_type Hmissing.
    pose proof (get_default_missing TYPE_MAPPING (lower change_type)
                  $"feature.md" Hmissing) as Hres.
    destruct (suggest_template_provisioned read_text lower changes_summary
                change_type Hprov Hdec) as (ty & c & Hin & Hc & Hs).
    rewrite Hres in *. destruct (Hlabel _ _ Hin) as [_ Hty].
    specialize (Hty eq_refl). subst ty.
    eexists. exists c. split; [exact Hc|]. split; [reflexivity|exact Hs].
Qed.

(** C8: every text [suggest_template] returns is the indented dump of a
    recommendation whose [reasoning] string contains the caller's
    [changes_summary] and [change_type] verbatim; and with the template
    files in place the tool does return one, for every pair of strings. *)
Theorem reasoning_embeds_both_strings changes_summary change_type :
  (forall text,
      suggest_template read_text lower changes_summary change_type = Ok text ->
      exists doc reasoning,
        text = dumps (Some 2) doc /\
        keys doc = suggestion_keys /\
        field $"reasoning" doc = Some (JString reasoning) /\
        Py.substring changes_summary reasoning /\
        Py.substring change_type reasoning) /\
  (provisioned read_text -> decoded_text read_text ->
   exists text,
     suggest_template read_text lower changes_summary change_type = Ok text).
Proof.
  split.
  - intros text Htext.
    destruct (suggest_template_inv _ _ _ _ _ Htext)
      as (selected & content & ->).
    eexists. eexists. split; [reflexivity|]. split; [reflexivity|].
    split; [reflexivity|]. split.
    + exists $"Based on your analysis: '".
      exists ($"', this appears to be a " ++ change_type ++ $" change.").
      reflexivity.
    + exists ($"Based on your analysis: '" ++ changes_summary
              ++ $"', this appears to be a ").
      exists $" change.". rewrite <- !app_assoc. reflexivity.
  - intros Hprov Hdec.
    destruct (suggest_template_provisioned read_text lower changes_summary
                change_type Hprov Hdec) as (ty & c & _ & _ & Hs).
    eexists. exact Hs.
Qed.

(** C4, amended: every change report, template listing and
    recommendation the tools return is a JSON document printed with an
    indentation of two spaces; the no-changes message and the error
    results of [analyze_file_changes] are documents with the single key
    [message] or [error], printed compactly on one line, without
    indentation.  [analyze_file_changes] returns one of the three in every
    run. *)
Theorem tool_outputs_are_json_dumps run_process context_root getcwd
    base_branch include_diff max_diff_lines working_dir log
    changes_summary change_type :
  (exists text log',
      analyze_file_changes run_process context_root getcwd base_branch
        include_diff max_diff_lines working_dir log = (Ok text, log') /\
      (text = dumps None (JObject [($"message",
                                    JString $"No changes detected.")]) \/
       (exists message,
           text = dumps None (JObject [($"error", JString message)])) \/
       (exists report,
           text = dumps (Some 2) report /\ keys report = report_keys))) /\
  (forall text,
      get_pr_templates read_text = Ok text ->
      exists records,
        text = dumps (Some 2) (JArray records) /\
        Forall2 (record_of read_text) DEFAULT_TEMPLATES records) /\
  (forall text,
      suggest_template read_text lower changes_summary change_type = Ok text ->
      exists doc,
        text = dumps (Some 2) doc /\ keys doc = suggestion_keys).
Proof.
  split; [|split].
  - destruct (analyze_cases run_process context_root getcwd base_branch
                include_diff max_diff_lines working_dir log)
      as (text & log' & Hrun & Hshape).
    exists text, log'. split; [exact Hrun|].
    destruct Hshape as [-> | [(message & ->) | (l & _ & ->)]].
    + left. reflexivity.
    + right. left. exists message. reflexivity.
    + right. right. eexists. split; reflexivity.
  - intros text. unfold get_pr_templates.
    destruct (read_templates read_text DEFAULT_TEMPLATES) as [records|e] eqn:Hr;
      [|discriminate].
    cbn [result_bind]. intros H. injection H as <-.
    exists records. split; [reflexivity|].
    apply read_templates_inv. exact Hr.
  - intros text Htext.
    destruct (suggest_template_inv _ _ _ _ _ Htext)
      as (selected & content & ->).
    eexists. split; reflexivity.
Qed.

End TemplateClaims.

(** ** Concrete runs of the template tools *)

(** No document printed with an indentation starts with a brace
    followed by a quote, as the compact one-key objects do. *)
Lemma indented_dump_head n v t :
  dumps (Some n) v <> 123%N :: Py.DQUOTE :: t.
Proof.
  unfold dumps.
  destruct v as [|[|]|z|str|[|x l]|[|kv m]]; cbn [encode];
    try (cbn; discriminate).
  pose proof (int_repr_head z) as H.
  destruct (Py.int_repr z) as [|c r]; [contradiction|].
  intros Heq. injection Heq as -> _.
  destruct H as [H|H]; discriminate H.
Qed.

(** On a clean branch the tool returns the compact message text, which
    is the indented dump of no document; and without git it returns a
    compact error text, which is none either. *)
Lemma message_and_error_are_not_indented :
  fst (analyze_file_changes git_clean None $"/repo" $"main" true 500 None [])
    = Ok no_changes_text /\
  (forall n v, dumps (Some n) v <> no_changes_text) /\
  fst (analyze_file_changes git_missing None $"/repo" $"main" true 500 None [])
    = Ok (dumps None
            (error_doc $"[Errno 2] No such file or directory: 'git'")) /\
  (forall n v,
      dumps (Some n) v
        <> dumps None
             (error_doc $"[Errno 2] No such file or directory: 'git'")).
Proof.
  split; [vm_compute; reflexivity|]. split; [intros n v; apply indented_dump_head|].
  split; [vm_compute; reflexivity|]. intros n v. apply indented_dump_head.
Qed.

(** The sample store holds every file of the table, as decoded text. *)
Lemma sample_store_provisioned : provisioned sample_store.
Proof. intros filename _. eexists. reflexivity. Qed.

Lemma sample_store_decoded : decoded_text sample_store.
Proof.
  intros filename content Hin H. injection H as <-.
  assert (Hf : wf_str filename).
  { pose proof table_strings_wf as Ht. rewrite Forall_forall in Ht.
    apply in_map_iff in Hin. destruct Hin as (entry & <- & Hentry).
    apply Ht. exact Hentry. }
  unfold wf_str in *. repeat (constructor; [left; reflexivity|]).
  apply Forall_app. split; [exact Hf|].
  repeat (constructor; [left; reflexivity|]). constructor.
Qed.

Lemma ascii_lower_lowers_ascii : lowers_ascii Py.ascii_lower.
Proof. intros s _. reflexivity. Qed.

(** The listing of the sample store: seven records. *)
Lemma get_pr_templates_on_sample_store :
  exists text records,
    get_pr_templates sample_store = Ok text /\
    text = dumps (Some 2) (JArray records) /\
    List.length records = 7.
Proof.
  destruct (get_pr_templates_lists_the_table sample_store) as [Hinv Hret].
  destruct (Hret sample_store_provisioned) as [text Htext].
  destruct (Hinv text Htext) as (records & Hdump & Hlen & _).
  exists text, records. split; [exact Htext|]. split; [exact Hdump|].
  exact Hlen.
Defined.

(** The sample store with ASCII lower-casing: [fix] and [bug] resolve to
    [bug.md], and [unknown-xyz] gives the record of [feature.md]. *)
Lemma resolution_on_sample_store :
  lowers_ascii Py.ascii_lower /\
  get_default TYPE_MAPPING (Py.ascii_lower $"fix") $"feature.md" = $"bug.md" /\
  get_default TYPE_MAPPING (Py.ascii_lower $"bug") $"feature.md" = $"bug.md" /\
  ~ In (Py.ascii_lower $"unknown-xyz") (map fst TYPE_MAPPING) /\
  exists record content,
    sample_store $"feature.md" = Ok content /\
    record = template_record $"feature.md" $"Feature" content /\
    suggest_template sample_store Py.ascii_lower $"Fixes a crash"
      $"unknown-xyz"
      = Ok (dumps (Some 2)
              (suggestion record (JString content) $"Fixes a crash"
                          $"unknown-xyz")).
Proof.
  destruct (fix_and_bug_resolve_alike_unknown_to_feature sample_store
              Py.ascii_lower $"Fixes a crash" ascii_lower_lowers_ascii)
    as (Hfix & Hbug & Hunknown & _ & Hstore).
  split; [exact ascii_lower_lowers_ascii|].
  split; [exact Hfix|]. split; [exact Hbug|]. split; [exact Hunknown|].
  destruct (Hstore sample_store_provisioned sample_store_decoded)
    as [_ Hother].
  exact (Hother $"unknown-xyz" Hunknown).
Defined.

(** The sample store: the reasoning of a returned recommendation. *)
Lemma reasoning_on_sample_store :
  exists text doc reasoning,
    suggest_template sample_store Py.ascii_lower $"Fixes a crash" $"FIX"
      = Ok text /\
    text = dumps (Some 2) doc /\
    field $"reasoning" doc = Some (JString reasoning) /\
    Py.substring $"Fixes a crash" reasoning /\
    Py.substring $"FIX" reasoning.
Proof.
  destruct (reasoning_embeds_both_strings sample_store Py.ascii_lower
              $"Fixes a crash" $"FIX") as [Hinv Hret].
  destruct (Hret sample_store_provisioned sample_store_decoded)
    as [text Htext].
  destruct (Hinv text Htext) as (doc & reasoning & Hdump & _ & Hr & H1 & H2).
  exists text, doc, reasoning. repeat split; assumption.
Defined.

(** When [docs.md] is missing the listing raises: no partial list. *)
Lemma get_pr_templates_without_docs :
  get_pr_templates store_without_docs
    = Raise (Exception $"No such file or directory") /\
  suggest_template store_without_docs Py.ascii_lower $"Fixes a crash" $"fix"
    = Raise (Exception $"No such file or directory").
Proof. split; vm_compute; reflexivity. Qed.

(** [json.dumps] is injective on well-formed documents, with or without
    indentation: a text is the dump of one document only. *)
Lemma dumps_injective indent a b :
  wf a -> wf b -> dumps indent a = dumps indent b -> a = b.
Proof.
  intros Ha Hb Heq. pose proof (loads_dumps indent a Ha) as H.
  rewrite Heq, loads_dumps in H by exact Hb. congruence.
Qed.

(** ** Lines and white space *)

Lemma splitlines_from_break acc c s :
  Py.is_linebreak c = true ->
  Py.splitlines_from acc (c :: s)
    = acc :: Py.splitlines_from [] (after_break c s).
Proof.
  intros H. cbn [Py.splitlines_from]. rewrite H. unfold after_break.
  destruct s as [|d s]; [reflexivity|].
  destruct ((c =? Py.CR)%N && (d =? Py.LF)%N); reflexivity.
Qed.

Lemma splitlines_from_char acc c s :
  Py.is_linebreak c = false ->
  Py.splitlines_from acc (c :: s) = Py.splitlines_from (acc ++ [c]) s.
Proof. intros H. cbn [Py.splitlines_from]. rewrite H. reflexivity. Qed.

Lemma after_break_length c s : List.length (after_break c s) <= List.length s.
Proof.
  unfold after_break. destruct s as [|d s]; [cbn; lia|].
  destruct ((c =? Py.CR)%N && (d =? Py.LF)%N); cbn; lia.
Qed.

Lemma after_break_all (P : N -> Prop) c s :
  Forall P s -> Forall P (after_break c s).
Proof.
  unfold after_break. destruct s as [|d s]; [trivial|].
  destruct ((c =? Py.CR)%N && (d =? Py.LF)%N); [|trivial].
  intros H. inversion H; assumption.
Qed.

(** Induction along the lines [splitlines] reads. *)
Lemma splitlines_from_induction (Q : Py.str -> Py.str -> Prop) :
  (forall acc, Q acc []) ->
  (forall acc c s,
      Py.is_linebreak c = false -> Q (acc ++ [c]) s -> Q acc (c :: s)) ->
  (forall acc c s,
      Py.is_linebreak c = true -> Q [] (after_break c s) -> Q acc (c :: s)) ->
  forall s acc, Q acc s.
Proof.
  intros Hnil Hchar Hbreak s.
  assert (H : forall n s, List.length s <= n -> forall acc, Q acc s).
  { induction n as [|n IH]; intros t Hlen acc.
    - destruct t; [apply Hnil|cbn in Hlen; lia].
    - destruct t as [|c t]; [apply Hnil|].
      destruct (Py.is_linebreak c) eqn:E.
      + apply Hbreak; [exact E|]. apply IH.
        pose proof (after_break_length c t). cbn in Hlen. lia.
      + apply Hchar; [exact E|]. apply IH. cbn in Hlen. lia. }
  apply (H (List.length s)). lia.
Qed.

Lemma splitlines_from_nonempty s acc :
  acc <> [] \/ s <> [] -> Py.splitlines_from acc s <> [].
Proof.
  revert s acc.
  apply (splitlines_from_induction
           (fun acc s => acc <> [] \/ s <> [] ->
                         Py.splitlines_from acc s <> [])).
  - intros acc [H|H]; [|congruence]. destruct acc; [congruence|discriminate].
  - intros acc c s E IH _. rewrite splitlines_from_char by exact E.
    apply IH. left. destruct acc; discriminate.
  - intros acc c s E _ _. rewrite splitlines_from_break by exact E.
    discriminate.
Qed.

(** A string that is not empty has at least one line. *)
Lemma splitlines_nonempty s : s <> [] -> Py.splitlines s <> [].
Proof. intros H. apply splitlines_from_nonempty. right. exact H. Qed.

Lemma splitlines_from_all (P : N -> Prop) s acc :
  Forall P acc -> Forall P s -> Forall (Forall P) (Py.splitlines_from acc s).
Proof.
  revert s acc.
  apply (splitlines_from_induction
           (fun acc s => Forall P acc -> Forall P s ->
                         Forall (Forall P) (Py.splitlines_from acc s))).
  - intros acc Hacc _. cbn. destruct acc; repeat constructor.
    + inversion Hacc; assumption.
    + inversion Hacc; assumption.
  - intros acc c s E IH Hacc Hs. rewrite splitlines_from_char by exact E.
    inversion Hs; subst. apply IH; [|assumption].
    apply Forall_app. split; [exact Hacc|]. repeat constructor. assumption.
  - intros acc c s E IH Hacc Hs. rewrite splitlines_from_break by exact E.
    inversion Hs; subst. constructor; [exact Hacc|].
    apply IH; [constructor|]. apply after_break_all. assumption.
Qed.

Lemma splitlines_all (P : N -> Prop) s :
  Forall P s -> Forall (Forall P) (Py.splitlines s).
Proof. apply splitlines_from_all. constructor. Qed.

(** No line of [splitlines] holds a line boundary. *)
Lemma splitlines_from_no_break s acc :
  no_break acc -> Forall no_break (Py.splitlines_from acc s).
Proof.
  revert s acc.
  apply (splitlines_from_induction
           (fun acc s => no_break acc ->
                         Forall no_break (Py.splitlines_from acc s))).
  - intros acc Hacc. cbn. destruct acc; repeat constructor.
    + inversion Hacc; assumption.
    + inversion Hacc; assumption.
  - intros acc c s E IH Hacc. rewrite splitlines_from_char by exact E.
    apply IH. apply Forall_app. split; [exact Hacc|]. repeat constructor.
    exact E.
  - intros acc c s E IH Hacc. rewrite splitlines_from_break by exact E.
    constructor; [exact Hacc|]. apply IH. constructor.
Qed.

Lemma splitlines_no_break s : Forall no_break (Py.splitlines s).
Proof. apply splitlines_from_no_break. constructor. Qed.

(** Reading a line that holds no boundary. *)
Lemma splitlines_from_line line : forall acc rest,
  no_break line ->
  Py.splitlines_from acc (line ++ Py.LF :: rest)
    = (acc ++ line) :: Py.splitlines_from [] rest.
Proof.
  induction line as [|c line IH]; intros acc rest Hline.
  - cbn [List.app]. rewrite splitlines_from_break by reflexivity.
    rewrite app_nil_r. unfold after_break. destruct rest; reflexivity.
  - inversion Hline as [|? ? Hc Hline']; subst. cbn [List.app].
    rewrite splitlines_from_char by exact Hc. rewrite IH by exact Hline'.
    rewrite <- app_assoc. reflexivity.
Qed.

Lemma splitlines_from_last line : forall acc,
  no_break line -> acc ++ line <> [] ->
  Py.splitlines_from acc line = [acc ++ line].
Proof.
  induction line as [|c line IH]; intros acc Hline Hne.
  - rewrite app_nil_r in *. cbn. destruct acc; [congruence|reflexivity].
  - inversion Hline as [|? ? Hc Hline']; subst.
    rewrite splitlines_from_char by exact Hc. rewrite IH.
    + rewrite <- app_assoc. reflexivity.
    + exact Hline'.
    + destruct acc; discriminate.
Qed.

(** Lines joined by line feeds and followed by one more line split back
    into the lines and that line. *)
Lemma splitlines_join_then lines final :
  Forall no_break lines -> lines <> [] -> no_break final -> final <> [] ->
  Py.splitlines (Py.join [Py.LF] lines ++ Py.LF :: final) = lines ++ [final].
Proof.
  intros Hlines Hne Hfinal Hfne. unfold Py.splitlines.
  induction Hlines as [|line lines Hline Hrest IH]; [congruence|].
  destruct lines as [|line2 lines].
  - cbn [Py.join List.app]. rewrite splitlines_from_line by exact Hline.
    rewrite splitlines_from_last by assumption. reflexivity.
  - rewrite join_cons2. rewrite <- !app_assoc. cbn [List.app].
    rewrite splitlines_from_line by exact Hline.
    rewrite IH by discriminate. reflexivity.
Qed.

Lemma firstn_all {A} (P : A -> Prop) n (l : list A) :
  Forall P l -> Forall P (firstn n l).
Proof.
  intros H. revert n. induction H as [|x l Hx _ IH]; intros n.
  - rewrite firstn_nil. constructor.
  - destruct n; [constructor|]. cbn [firstn]. constructor; [exact Hx|apply IH].
Qed.

Lemma slice_to_all {A} (P : A -> Prop) (l : list A) stop :
  Forall P l -> Forall P (Py.slice_to l stop).
Proof.
  intros H. unfold Py.slice_to. destruct (stop <? 0)%Z; apply firstn_all, H.
Qed.

Lemma join_all (P : N -> Prop) sep parts :
  Forall P sep -> Forall (Forall P) parts -> Forall P (Py.join sep parts).
Proof.
  intros Hsep Hparts.
  induction Hparts as [|p parts Hp Hrest IH]; [constructor|].
  destruct parts as [|q parts]; [exact Hp|].
  rewrite join_cons2. apply Forall_app. split; [exact Hp|].
  apply Forall_app. split; [exact Hsep|exact IH].
Qed.

Lemma lstrip_all (P : N -> Prop) s : Forall P s -> Forall P (Py.lstrip s).
Proof.
  induction 1 as [|c s Hc Hs IH]; [constructor|]. cbn [Py.lstrip].
  destruct (Py.is_space c); [exact IH|constructor; assumption].
Qed.

Lemma strip_all (P : N -> Prop) s : Forall P s -> Forall P (Py.strip s).
Proof.
  intros H. unfold Py.strip, Py.rstrip.
  apply Forall_rev, lstrip_all, Forall_rev, lstrip_all, H.
Qed.

Lemma lstrip_head s :
  match Py.lstrip s with
  | [] => True
  | c :: _ => Py.is_space c = false
  end.
Proof.
  induction s as [|c s IH]; [exact I|]. cbn [Py.lstrip].
  destruct (Py.is_space c) eqn:E; [exact IH|exact E].
Qed.

Lemma lstrip_blank s : blank s -> Py.lstrip s = [].
Proof.
  induction 1 as [|c s Hc _ IH]; [reflexivity|]. cbn [Py.lstrip].
  rewrite Hc. exact IH.
Qed.

Lemma lstrip_empty_blank s : Py.lstrip s = [] -> blank s.
Proof.
  induction s as [|c s IH]; [constructor|]. cbn [Py.lstrip].
  destruct (Py.is_space c) eqn:E; [|discriminate].
  intros H. constructor; [exact E|apply IH, H].
Qed.

Lemma lstrip_snoc s c :
  Py.is_space c = false -> Py.lstrip (s ++ [c]) = Py.lstrip s ++ [c].
Proof.
  intros Hc. induction s as [|d s IH]; cbn [List.app Py.lstrip].
  - rewrite Hc. reflexivity.
  - destruct (Py.is_space d); [exact IH|reflexivity].
Qed.

(** A stripped string is empty exactly when the string is blank. *)
Lemma strip_empty_iff s : Py.strip s = [] <-> blank s.
Proof.
  unfold Py.strip, Py.rstrip. split.
  - intros H. apply lstrip_empty_blank.
    apply (f_equal (@rev N)) in H. rewrite rev_involutive in H. cbn in H.
    pose proof (lstrip_head s) as Hhead.
    destruct (Py.lstrip s) as [|c t]; [reflexivity|].
    cbn [rev] in H. rewrite lstrip_snoc in H by exact Hhead.
    destruct (Py.lstrip (rev t)); discriminate.
  - intros H. rewrite (lstrip_blank s H). reflexivity.
Qed.

(** [strip] leaves no white space at either end. *)
Lemma strip_stripped s : stripped (Py.strip s).
Proof.
  unfold Py.strip, Py.rstrip. pose proof (lstrip_head s) as Hhead.
  destruct (Py.lstrip s) as [|c t]; [exact I|].
  cbn [rev]. rewrite lstrip_snoc by exact Hhead.
  rewrite rev_app_distr. cbn [rev List.app]. split; [exact Hhead|].
  pose proof (lstrip_head (rev t)) as Hlast.
  destruct (Py.lstrip (rev t)) as [|d u]; [exact Hhead|].
  cbn [rev]. change (c :: rev u ++ [d]) with ((c :: rev u) ++ [d]).
  rewrite last_last. exact Hlast.
Qed.


(** ** More about [analyze_file_changes] *)

Section AnalyzeMore.

Variable run_process : command -> outcome.
Variable context_root : option Py.str.
Variable getcwd : Py.str.

#[local] Abbreviation analyze :=
  (analyze_file_changes run_process context_root getcwd).
#[local] Abbreviation directory :=
  (resolve_working_dir context_root getcwd).

(** Unfolds a run of the tool and splits on what each command does. *)
Ltac run_cases :=
  unfold analyze_file_changes, try_except, analyze_try, bind, subprocess_run;
  repeat match goal with
         | |- context [match run_process ?c with _ => _ end] =>
             let E := fresh "Hrun" in
             destruct (run_process c) as [? [|? ?] ?|?] eqn:E;
             cbn [andb negb stdout analyze_except fst snd]
         end.


(** When starting a command raises, the run returns the compact dump of
    [{"error": str(e)}] and starts no further command: this holds for the
    first query, and for each later one once the queries before it have
    run to their end with a diff that is not empty. *)
Theorem spawn_failure_becomes_error_text base_branch include_diff
    max_diff_lines working_dir log :
  (forall message,
      run_process (diff_command base_branch (directory working_dir))
        = Failed message ->
      analyze base_branch include_diff max_diff_lines working_dir log
        = (Ok (dumps None (error_doc message)),
           log ++ firstn 1 (four_commands base_branch (directory working_dir))))
  /\
  (forall diff message,
      answers run_process (diff_command base_branch (directory working_dir))
        diff ->
      diff <> [] ->
      run_process (stat_command base_branch (directory working_dir))
        = Failed message ->
      analyze base_branch include_diff max_diff_lines working_dir log
        = (Ok (dumps None (error_doc message)),
           log ++ firstn 2 (four_commands base_branch (directory working_dir))))
  /\
  (forall diff stat message,
      answers run_process (diff_command base_branch (directory working_dir))
        diff ->
      diff <> [] ->
      answers run_process (stat_command base_branch (directory working_dir))
        stat ->
      run_process (names_command base_branch (directory working_dir))
        = Failed message ->
      analyze base_branch include_diff max_diff_lines working_dir log
        = (Ok (dumps None (error_doc message)),
           log ++ firstn 3 (four_commands base_branch (directory working_dir))))
  /\
  (forall diff stat names message,
      answers run_process (diff_command base_branch (directory working_dir))
        diff ->
      diff <> [] ->
      answers run_process (stat_command base_branch (directory working_dir))
        stat ->
      answers run_process (names_command base_branch (directory working_dir))
        names ->
      run_process (log_command base_branch (directory working_dir))
        = Failed message ->
      analyze base_branch include_diff max_diff_lines working_dir log
        = (Ok (dumps None (error_doc message)),
           log ++ firstn 4 (four_commands base_branch
                              (directory working_dir)))).
Proof.
  unfold answers, four_commands, diff_command, stat_command, names_command,
    log_command.
  repeat split.
  - intros message H1. run_cases; try congruence.
    injection H1 as <-. reflexivity.
  - intros diff message (s1 & e1 & H1) Hne H2. run_cases; try congruence.
    injection H2 as <-. unfold ret. rewrite <- app_assoc. reflexivity.
  - intros diff stat message (s1 & e1 & H1) Hne (s2 & e2 & H2) H3.
    run_cases; try congruence;
      injection H3 as <-; unfold ret; rewrite <- !app_assoc; reflexivity.
  - intros diff stat names message (s1 & e1 & H1) Hne (s2 & e2 & H2)
      (s3 & e3 & H3) H4.
    run_cases; try congruence;
      injection H4 as <-; unfold ret; rewrite <- !app_assoc; reflexivity.
Qed.

(** Which commands a run starts does not depend on [include_diff] or
    [max_diff_lines]. *)
Theorem commands_do_not_depend_on_the_flags base_branch working_dir log
    include_diff max_diff_lines include_diff' max_diff_lines' :
  snd (analyze_file_changes run_process context_root getcwd base_branch
         include_diff max_diff_lines working_dir log)
    = snd (analyze_file_changes run_process context_root getcwd base_branch
             include_diff' max_diff_lines' working_dir log).
Proof.
  run_cases; unfold ret, raise; cbn [truncated diff_lines diff_output];
    repeat match goal with
           | |- context [(Py.len ?x >? ?m)%Z] => destruct (Py.len x >? m)%Z
           end;
    reflexivity.
Qed.

(** The report of a run in which the four commands are answered. *)
Lemma report_of_answers base_branch include_diff max_diff_lines working_dir
    log diff stat names commits :
  answers run_process (diff_command base_branch (directory working_dir)) diff ->
  diff <> [] ->
  answers run_process (stat_command base_branch (directory working_dir)) stat ->
  answers run_process (names_command base_branch (directory working_dir))
    names ->
  answers run_process (log_command base_branch (directory working_dir))
    commits ->
  exists l log',
    analyze base_branch include_diff max_diff_lines working_dir log
      = (Ok (dumps (Some 2)
               (change_report base_branch include_diff
                  (truncated_form diff max_diff_lines) l)), log') /\
    diff_output l = diff /\
    diff_lines l = Py.splitlines diff /\
    stdout (stats_result l) = stat /\
    changed_files l = Py.splitlines (Py.strip names) /\
    stdout (commits_result l) = commits.
Proof.
  intros Hd Hne Hs Hn Hc.
  destruct (locals_of_answers run_process max_diff_lines _ _ _ _ _ _
              Hd Hne Hs Hn Hc) as (l & Hl & Hdiff & Hrest).
  exists l. eexists. split; [|split; [exact Hdiff|exact Hrest]].
  rewrite <- Hdiff. apply analyze_report. exact Hl.
Qed.

(** A diff that is not empty has at least one line, so with a limit of
    zero or less the report is always truncated: with the limit 0 the
    [truncated] key holds the marker alone, and with a negative limit
    [M] it holds the first [L + M] lines of the [L] (none when that is
    negative) before the marker. *)
Theorem truncated_field_for_nonpositive_limit base_branch include_diff
    max_diff_lines working_dir log diff stat names commits :
  (max_diff_lines <= 0)%Z ->
  answers run_process (diff_command base_branch (directory working_dir)) diff ->
  diff <> [] ->
  answers run_process (stat_command base_branch (directory working_dir)) stat ->
  answers run_process (names_command base_branch (directory working_dir))
    names ->
  answers run_process (log_command base_branch (directory working_dir))
    commits ->
  exists report log',
    analyze base_branch include_diff max_diff_lines working_dir log
      = (Ok (dumps (Some 2) report), log') /\
    (1 <= Py.len (Py.splitlines diff))%Z /\
    (max_diff_lines = 0%Z ->
     field $"truncated" report = Some (JString truncation_marker)) /\
    ((max_diff_lines < 0)%Z ->
     field $"truncated" report
       = Some (JString
                 (Py.join [Py.LF]
                    (firstn (Z.to_nat (Py.len (Py.splitlines diff)
                                       + max_diff_lines))
                            (Py.splitlines diff))
                  ++ truncation_marker))).
Proof.
  intros HM Hd Hne Hs Hn Hc.
  destruct (report_of_answers base_branch include_diff max_diff_lines
              working_dir log _ _ _ _ Hd Hne Hs Hn Hc)
    as (l & log' & Hrun & _).
  assert (HL : (1 <= Py.len (Py.splitlines diff))%Z).
  { pose proof (splitlines_nonempty diff Hne) as H. unfold Py.len.
    destruct (Py.splitlines diff); [congruence|cbn [List.length]; lia]. }
  eexists. eexists. split; [exact Hrun|]. split; [exact HL|].
  assert (Hgt : (Py.len (Py.splitlines diff) >? max_diff_lines)%Z = true)
    by (apply Z.gtb_lt; lia).
  cbn [field change_report dict_get].
  change (field $"truncated" ?r) with (field $"truncated" r).
  unfold truncated_form. rewrite Hgt. split.
  - intros ->. reflexivity.
  - intros Hneg. unfold Py.slice_to.
    destruct (max_diff_lines <? 0)%Z eqn:E; [|apply Z.ltb_ge in E; lia].
    replace (Z.to_nat (Z.max 0 (Py.len (Py.splitlines diff) + max_diff_lines)))
      with (Z.to_nat (Py.len (Py.splitlines diff) + max_diff_lines)) by lia.
    reflexivity.
Qed.

(** With a limit [M] of at least one line, below the number of lines of
    the diff, the truncated text splits back into the first [M] lines of
    the diff and the marker line: it has exactly [M + 1] lines. *)
Theorem truncated_text_has_one_line_more base_branch include_diff
    max_diff_lines working_dir log diff stat names commits :
  (1 <= max_diff_lines < Py.len (Py.splitlines diff))%Z ->
  answers run_process (diff_command base_branch (directory working_dir)) diff ->
  diff <> [] ->
  answers run_process (stat_command base_branch (directory working_dir)) stat ->
  answers run_process (names_command base_branch (directory working_dir))
    names ->
  answers run_process (log_command base_branch (directory working_dir))
    commits ->
  exists report log' text,
    analyze base_branch include_diff max_diff_lines working_dir log
      = (Ok (dumps (Some 2) report), log') /\
    field $"truncated" report = Some (JString text) /\
    Py.splitlines text
      = firstn (Z.to_nat max_diff_lines) (Py.splitlines diff)
        ++ [$"... (truncated)"] /\
    Py.len (Py.splitlines text) = (max_diff_lines + 1)%Z.
Proof.
  intros HM Hd Hne Hs Hn Hc.
  destruct (report_of_answers base_branch include_diff max_diff_lines
              working_dir log _ _ _ _ Hd Hne Hs Hn Hc)
    as (l & log' & Hrun & _).
  eexists. eexists. eexists. split; [exact Hrun|].
  split; [reflexivity|].
  assert (Hgt : (Py.len (Py.splitlines diff) >? max_diff_lines)%Z = true)
    by (apply Z.gtb_lt; lia).
  unfold truncated_form. rewrite Hgt.
  rewrite slice_to_firstn by lia. unfold truncation_marker.
  assert (Hsplit :
    Py.splitlines
      (Py.join [Py.LF] (firstn (Z.to_nat max_diff_lines) (Py.splitlines diff))
       ++ Py.LF :: $"... (truncated)")
    = firstn (Z.to_nat max_diff_lines) (Py.splitlines diff)
      ++ [$"... (truncated)"]).
  { apply splitlines_join_then.
    - apply firstn_all, splitlines_no_break.
    - unfold Py.len in HM.
      destruct (Py.splitlines diff) as [|x xs]; [cbn in HM; lia|].
      destruct (Z.to_nat max_diff_lines) eqn:E; [lia|discriminate].
    - repeat constructor.
    - discriminate. }
  split; [exact Hsplit|]. rewrite Hsplit. unfold Py.len in *.
  rewrite length_app, firstn_length_le by lia. cbn [List.length]. lia.
Qed.

(** In every report the values of [statistics], [commits] and [diff]
    have no white space at either end. *)
Theorem report_texts_are_stripped base_branch include_diff max_diff_lines
    working_dir log diff stat names commits :
  answers run_process (diff_command base_branch (directory working_dir)) diff ->
  diff <> [] ->
  answers run_process (stat_command base_branch (directory working_dir)) stat ->
  answers run_process (names_command base_branch (directory working_dir))
    names ->
  answers run_process (log_command base_branch (directory working_dir))
    commits ->
  exists report log' statistics history shown,
    analyze base_branch include_diff max_diff_lines working_dir log
      = (Ok (dumps (Some 2) report), log') /\
    field $"statistics" report = Some (JString statistics) /\
    stripped statistics /\
    field $"commits" report = Some (JString history) /\
    stripped history /\
    field $"diff" report = Some (JString shown) /\
    stripped shown.
Proof.
  intros Hd Hne Hs Hn Hc.
  destruct (report_of_answers base_branch include_diff max_diff_lines
              working_dir log _ _ _ _ Hd Hne Hs Hn Hc)
    as (l & log' & Hrun & _).
  eexists. eexists. eexists. eexists. eexists.
  split; [exact Hrun|].
  split; [reflexivity|]. split; [apply strip_stripped|].
  split; [reflexivity|]. split; [apply strip_stripped|].
  split; [reflexivity|].
  destruct include_diff; [apply strip_stripped|]. split; reflexivity.
Qed.

Lemma splitlines_empty_iff s : Py.splitlines s = [] <-> s = [].
Proof.
  split; [|intros ->; reflexivity].
  intros H. destruct s as [|c s]; [reflexivity|].
  exfalso. apply (splitlines_nonempty (c :: s)); [discriminate|exact H].
Qed.

(** In a report [files_changed] is the empty list exactly when the
    name-only query wrote nothing but white space. *)
Theorem files_changed_empty_iff_blank base_branch include_diff max_diff_lines
    working_dir log diff stat names commits :
  answers run_process (diff_command base_branch (directory working_dir)) diff ->
  diff <> [] ->
  answers run_process (stat_command base_branch (directory working_dir)) stat ->
  answers run_process (names_command base_branch (directory working_dir))
    names ->
  answers run_process (log_command base_branch (directory working_dir))
    commits ->
  exists report log',
    analyze base_branch include_diff max_diff_lines working_dir log
      = (Ok (dumps (Some 2) report), log') /\
    (field $"files_changed" report = Some (JArray []) <-> blank names).
Proof.
  intros Hd Hne Hs Hn Hc.
  destruct (report_of_answers base_branch include_diff max_diff_lines
              working_dir log _ _ _ _ Hd Hne Hs Hn Hc)
    as (l & log' & Hrun & _ & _ & _ & Hfiles & _).
  eexists. eexists. split; [exact Hrun|].
  cbn [field change_report dict_get].
  change (Py.eqb $"base_branch" $"files_changed") with false.
  change (Py.eqb $"files_changed" $"files_changed") with true.
  cbv iota. rewrite Hfiles.
  rewrite <- strip_empty_iff, <- splitlines_empty_iff. split.
  - intros H. injection H as H.
    destruct (Py.splitlines (Py.strip names)); [reflexivity|discriminate].
  - intros ->. reflexivity.
Qed.

(** The emptiness test is on the raw output: a diff output that is not
    empty but holds only white space still gives a report, with the empty
    string under [diff] and a line count of at least one. *)
Theorem blank_diff_still_gives_a_report base_branch max_diff_lines
    working_dir log diff stat names commits :
  blank diff ->
  answers run_process (diff_command base_branch (directory working_dir)) diff ->
  diff <> [] ->
  answers run_process (stat_command base_branch (directory working_dir)) stat ->
  answers run_process (names_command base_branch (directory working_dir))
    names ->
  answers run_process (log_command base_branch (directory working_dir))
    commits ->
  exists report log' lines,
    analyze base_branch true max_diff_lines working_dir log
      = (Ok (dumps (Some 2) report), log') /\
    keys report = report_keys /\
    field $"diff" report = Some (JString []) /\
    field $"total_diff_lines" report = Some (JInt lines) /\
    (1 <= lines)%Z.
Proof.
  intros Hblank Hd Hne Hs Hn Hc.
  destruct (report_of_answers base_branch true max_diff_lines
              working_dir log _ _ _ _ Hd Hne Hs Hn Hc)
    as (l & log' & Hrun & Hdiff & Hlines & _).
  eexists. eexists. eexists. split; [exact Hrun|].
  split; [reflexivity|]. cbn.
  rewrite Hdiff, Hlines. rewrite (proj2 (strip_empty_iff diff) Hblank).
  split; [reflexivity|]. split; [reflexivity|].
  pose proof (splitlines_nonempty diff Hne) as H. unfold Py.len.
  destruct (Py.splitlines diff); [congruence|cbn [List.length]; lia].
Qed.

Lemma error_doc_wf message : wf_str message -> wf (error_doc message).
Proof.
  intros H. constructor.
  - repeat constructor. intros [].
  - constructor; [|constructor].
    split; [apply lit_wf|constructor; exact H].
Qed.

Lemma change_report_wf base_branch include_diff truncated_value l :
  wf_str base_branch -> wf_str truncated_value ->
  wf_str (diff_output l) -> Forall wf_str (changed_files l) ->
  wf_str (stdout (stats_result l)) -> wf_str (stdout (commits_result l)) ->
  wf (change_report base_branch include_diff truncated_value l).
Proof.
  intros Hb Ht Hd Hf Hs Hc. unfold change_report. constructor.
  - cbn. repeat constructor; cbn; intros H;
      repeat (destruct H as [H|H]; try discriminate H); exact H.
  - repeat (constructor; [split; [apply lit_wf|]|]); cbn [snd];
      try constructor.
    + exact Hb.
    + apply Forall_forall. intros v Hv. apply in_map_iff in Hv.
      destruct Hv as (f & <- & Hin). constructor.
      rewrite Forall_forall in Hf. apply Hf, Hin.
    + apply strip_all, Hs.
    + apply strip_all, Hc.
    + destruct include_diff; [apply strip_all, Hd|apply lit_wf].
    + exact Ht.
Qed.

(** When the processes write decoded text and the branch name is well
    formed, the text [analyze_file_changes] returns is valid JSON in
    every case: [json.loads] gives back the document it was printed
    from. *)
Theorem analyze_text_parses_back base_branch include_diff max_diff_lines
    working_dir log :
  decoded_process run_process ->
  wf_str base_branch ->
  exists text doc log',
    analyze base_branch include_diff max_diff_lines working_dir log
      = (Ok text, log') /\
    (text = dumps None doc \/ text = dumps (Some 2) doc) /\
    loads text = Some doc.
Proof.
  intros Hdec Hbranch.
  run_cases; unfold ret, raise;
    cbn [truncated diff_lines diff_output];
    repeat match goal with
           | H : run_process ?c = _ |- _ =>
               let Hw := fresh "Hw" in
               pose proof (Hdec c) as Hw; rewrite H in Hw; clear H
           end;
    try destruct (Py.len _ >? max_diff_lines)%Z eqn:Hlen;
    eexists; eexists; eexists; (split; [reflexivity|]).
  all: try (split; [left; reflexivity|apply loads_dumps]).
  all: try (split; [right; reflexivity|apply loads_dumps]).
  all: try (apply error_doc_wf; assumption).
  all: try (constructor;
            [repeat constructor; intros []
            |constructor; [|constructor];
             split; [apply lit_wf|constructor; apply lit_wf]]).
  all: apply change_report_wf; cbn [diff_output changed_files stats_result
                                     commits_result stdout];
    try assumption;
    try (apply splitlines_all, strip_all; assumption).
  all: first
    [ apply strip_all; assumption
    | apply Forall_app; split;
      [ apply join_all;
        [ repeat constructor; left; reflexivity
        | apply slice_to_all, splitlines_all; assumption ]
      | constructor; [left; reflexivity|apply lit_wf] ] ].
Qed.

End AnalyzeMore.

(** ** More about the template tools *)

Section TemplateMore.

Variable read_text : Py.str -> result Py.str.
Variable lower : Py.str -> Py.str.

Lemma read_templates_first_failure before : forall filename template_type
    after e,
  (forall f, In f (map fst before) -> exists c, read_text f = Ok c) ->
  read_text filename = Raise e ->
  read_templates read_text (before ++ (filename, template_type) :: after)
    = Raise e.
Proof.
  induction before as [|[f t] before IH];
    intros filename template_type after e Hbefore Hfail; cbn [List.app].
  - cbn [read_templates]. rewrite Hfail. reflexivity.
  - cbn [read_templates].
    destruct (Hbefore f (or_introl eq_refl)) as [c ->]. cbn [result_bind].
    rewrite (IH filename template_type after e); [reflexivity| |exact Hfail].
    intros g Hg. apply Hbefore. right. exact Hg.
Qed.

(** The listing reads the table in order and stops at the first file
    that cannot be read: [get_pr_templates] raises that file's exception,
    and [suggest_template] raises the same one, whatever its arguments;
    neither returns a partial result or an error document. *)
Theorem first_unreadable_file_raises before filename template_type after e
    changes_summary change_type :
  DEFAULT_TEMPLATES = before ++ (filename, template_type) :: after ->
  (forall f, In f (map fst before) -> exists c, read_text f = Ok c) ->
  read_text filename = Raise e ->
  get_pr_templates read_text = Raise e /\
  suggest_template read_text lower changes_summary change_type = Raise e.
Proof.
  intros Htable Hbefore Hfail.
  assert (H : get_pr_templates read_text = Raise e).
  { unfold get_pr_templates. rewrite Htable.
    rewrite (read_templates_first_failure before filename template_type
               after e) by assumption.
    reflexivity. }
  split; [exact H|]. unfold suggest_template. rewrite H. reflexivity.
Qed.

(** In every recommendation returned, [template_content] is the value
    of [content] in [recommended_template]. *)
Theorem template_content_is_the_record_content changes_summary change_type
    text :
  suggest_template read_text lower changes_summary change_type = Ok text ->
  exists doc selected content,
    text = dumps (Some 2) doc /\
    keys doc = suggestion_keys /\
    field $"recommended_template" doc = Some selected /\
    field $"content" selected = Some content /\
    field $"template_content" doc = Some content.
Proof.
  unfold suggest_template.
  destruct (get_pr_templates read_text) as [response|e]; [|discriminate].
  cbn [result_bind].
  destruct (loads response) as [[| | | |[|first others]|]|]; try discriminate.
  destruct (next_match _ _ _) as [selected|e]; [|discriminate].
  cbn [result_bind].
  destruct (field $"content" selected) as [content|] eqn:Hc; [|discriminate].
  intros H. injection H as <-. eexists. exists selected, content.
  split; [reflexivity|]. split; [reflexivity|]. split; [reflexivity|].
  split; [exact Hc|reflexivity].
Qed.

(** With the template files in place, the recommended record is always
    the record of the file the mapping resolves the category to, with the
    text of that file: the fallback to the first record of the listing is
    never taken. *)
Theorem recommendation_is_the_resolved_record changes_summary change_type :
  provisioned read_text ->
  decoded_text read_text ->
  exists doc template_type content,
    suggest_template read_text lower changes_summary change_type
      = Ok (dumps (Some 2) doc) /\
    In (get_default TYPE_MAPPING (lower change_type) $"feature.md",
        template_type) DEFAULT_TEMPLATES /\
    read_text (get_default TYPE_MAPPING (lower change_type) $"feature.md")
      = Ok content /\
    field $"recommended_template" doc
      = Some (template_record
                (get_default TYPE_MAPPING (lower change_type) $"feature.md")
                template_type content) /\
    field $"template_content" doc = Some (JString content).
Proof.
  intros Hprov Hdec.
  destruct (suggest_template_provisioned read_text lower changes_summary
              change_type Hprov Hdec) as (ty & content & Hin & Hc & Hs).
  eexists. exists ty, content. split; [exact Hs|].
  split; [exact Hin|]. split; [exact Hc|]. split; reflexivity.
Qed.

(** With the template files in place, [json.loads] of the text
    [get_pr_templates] returns is the list of the table's records: the
    parse at the head of [suggest_template] cannot fail. *)
Theorem listing_parses_back :
  provisioned read_text ->
  decoded_text read_text ->
  exists text records,
    get_pr_templates read_text = Ok text /\
    loads text = Some (JArray records) /\
    Forall2 (record_of read_text) DEFAULT_TEMPLATES records.
Proof.
  intros Hprov Hdec.
  destruct (read_templates_ok read_text DEFAULT_TEMPLATES Hprov)
    as (records & Hr & HF).
  eexists. exists records.
  split; [unfold get_pr_templates; rewrite Hr; reflexivity|].
  split; [|exact HF]. apply loads_dumps.
  exact (records_wf read_text _ _ Hdec table_strings_wf HF).
Qed.

Lemma suggestion_wf selected content changes_summary change_type :
  wf selected -> wf content -> wf_str changes_summary -> wf_str change_type ->
  wf (suggestion selected content changes_summary change_type).
Proof.
  intros Hs Hc Hsum Hty. unfold suggestion. constructor.
  - cbn. repeat constructor; cbn; intros H;
      repeat (destruct H as [H|H]; try discriminate H); exact H.
  - repeat (constructor; [split; [apply lit_wf|]|]); cbn [snd];
      try constructor; try assumption.
    + unfold wf_str in *. apply Forall_app. split; [apply lit_wf|].
      apply Forall_app. split; [exact Hsum|].
      apply Forall_app. split; [apply lit_wf|].
      apply Forall_app. split; [exact Hty|apply lit_wf].
    + apply lit_wf.
Qed.

(** With the template files in place and well-formed arguments, the
    text [suggest_template] returns parses back to the recommendation it
    was printed from. *)
Theorem recommendation_parses_back changes_summary change_type :
  provisioned read_text ->
  decoded_text read_text ->
  wf_str changes_summary ->
  wf_str change_type ->
  exists text doc,
    suggest_template read_text lower changes_summary change_type = Ok text /\
    text = dumps (Some 2) doc /\
    keys doc = suggestion_keys /\
    loads text = Some doc.
Proof.
  intros Hprov Hdec Hsum Hty.
  destruct (suggest_template_provisioned read_text lower changes_summary
              change_type Hprov Hdec) as (ty & content & Hin & Hc & Hs).
  eexists. eexists. split; [exact Hs|]. split; [reflexivity|].
  split; [reflexivity|]. apply loads_dumps.
  assert (Hcontent : wf_str content).
  { apply (Hdec _ _ (resolved_in_table (lower change_type)) Hc). }
  pose proof table_strings_wf as Ht. rewrite Forall_forall in Ht.
  destruct (Ht _ Hin) as [Hf Hl]. cbn [fst snd] in Hf, Hl.
  apply suggestion_wf; try assumption.
  - apply template_record_wf; assumption.
  - constructor. exact Hcontent.
Qed.

(** Two ASCII categories that differ only in case give the same
    recommended record and template content. *)
Theorem category_case_is_ignored changes_summary a b :
  lowers_ascii lower ->
  Py.is_ascii a -> Py.is_ascii b ->
  Py.ascii_lower a = Py.ascii_lower b ->
  provisioned read_text ->
  decoded_text read_text ->
  exists doc_a doc_b,
    suggest_template read_text lower changes_summary a
      = Ok (dumps (Some 2) doc_a) /\
    suggest_template read_text lower changes_summary b
      = Ok (dumps (Some 2) doc_b) /\
    field $"recommended_template" doc_a = field $"recommended_template" doc_b /\
    field $"template_content" doc_a = field $"template_content" doc_b.
Proof.
  intros Hlower Ha Hb Hab Hprov Hdec.
  assert (Hsame : lower a = lower b)
    by (rewrite (Hlower a Ha), (Hlower b Hb); exact Hab).
  destruct (suggest_template_provisioned read_text lower changes_summary
              a Hprov Hdec) as (ty1 & c1 & Hin1 & Hc1 & Hs1).
  destruct (suggest_template_provisioned read_text lower changes_summary
              b Hprov Hdec) as (ty2 & c2 & Hin2 & Hc2 & Hs2).
  rewrite Hsame in *.
  assert (c2 = c1) by congruence. subst c2.
  assert (ty2 = ty1).
  { revert Hin1 Hin2.
    generalize (get_default TYPE_MAPPING (lower b) $"feature.md").
    intros f Hin1 Hin2. cbn in Hin1, Hin2.
    repeat (destruct Hin1 as [Hin1|Hin1];
            [injection Hin1 as <- <-;
             repeat (destruct Hin2 as [Hin2|Hin2];
                     [first [discriminate Hin2
                            |injection Hin2 as <-; reflexivity]|]);
             contradiction|]).
    contradiction. }
  subst ty2.
  eexists. eexists. split; [exact Hs1|]. split; [exact Hs2|].
  split; reflexivity.
Qed.

(** Every template of the table is the recommendation for some category
    of the mapping. *)
Theorem every_template_is_recommended changes_summary entry :
  lowers_ascii lower ->
  provisioned read_text ->
  decoded_text read_text ->
  In entry DEFAULT_TEMPLATES ->
  exists change_type doc content,
    In change_type (map fst TYPE_MAPPING) /\
    suggest_template read_text lower changes_summary change_type
      = Ok (dumps (Some 2) doc) /\
    read_text (fst entry) = Ok content /\
    field $"recommended_template" doc
      = Some (template_record (fst entry) (snd entry) content).
Proof.
  intros Hlower Hprov Hdec Hentry.
  assert (Hkey : forall key file label,
            In key (map fst TYPE_MAPPING) ->
            Py.is_ascii key -> Py.ascii_lower key = key ->
            get_default TYPE_MAPPING key $"feature.md" = file ->
            (forall ty, In (file, ty) DEFAULT_TEMPLATES -> ty = label) ->
            exists change_type doc content,
              In change_type (map fst TYPE_MAPPING) /\
              suggest_template read_text lower changes_summary change_type
                = Ok (dumps (Some 2) doc) /\
              read_text file = Ok content /\
              field $"recommended_template" doc
                = Some (template_record file label content)).
  { intros key file label Hin Hascii Hlow Hres Hlabel.
    destruct (suggest_template_provisioned read_text lower changes_summary
                key Hprov Hdec) as (ty & c & Hin' & Hc & Hs).
    rewrite (Hlower key Hascii), Hlow, Hres in *.
    rewrite (Hlabel ty Hin') in *.
    exists key. eexists. exists c. split; [exact Hin|].
    split; [exact Hs|]. split; [exact Hc|reflexivity]. }
  assert (Hlabels : forall file label ty,
            In (file, label) DEFAULT_TEMPLATES ->
            In (file, ty) DEFAULT_TEMPLATES -> ty = label).
  { intros file label ty H1 H2. cbn in H1, H2.
    repeat (destruct H1 as [H1|H1];
            [injection H1 as <- <-;
             repeat (destruct H2 as [H2|H2];
                     [first [discriminate H2
                            |injection H2 as <-; reflexivity]|]);
             contradiction|]).
    contradiction. }
  destruct entry as [file label]. cbn [fst snd].
  pose proof (Hlabels file label) as Hl.
  specialize (fun ty => Hl ty Hentry).
  cbn in Hentry.
  repeat (destruct Hentry as [Hentry|Hentry];
          [injection Hentry as <- <-|]); try contradiction.
  - apply (Hkey $"bug"); try reflexivity; try exact Hl;
      [cbn; tauto|repeat constructor].
  - apply (Hkey $"feature"); try reflexivity; try exact Hl;
      [cbn; tauto|repeat constructor].
  - apply (Hkey $"docs"); try reflexivity; try exact Hl;
      [cbn; tauto|repeat constructor].
  - apply (Hkey $"refactor"); try reflexivity; try exact Hl;
      [cbn; tauto|repeat constructor].
  - apply (Hkey $"test"); try reflexivity; try exact Hl;
      [cbn; tauto|repeat constructor].
  - apply (Hkey $"performance"); try reflexivity; try exact Hl;
      [cbn; tauto|repeat constructor].
  - apply (Hkey $"security"); try reflexivity; try exact Hl;
      [cbn; tauto|repeat constructor].
Qed.

End TemplateMore.


(** ** Concrete runs for the further properties *)

Lemma git_blank_diff_answers :
  answers git_blank_diff (diff_command $"main" $"/repo") [Py.LF] /\
  [Py.LF] <> [] /\
  answers git_blank_diff (stat_command $"main" $"/repo") sample_stat /\
  answers git_blank_diff (names_command $"main" $"/repo") sample_names /\
  answers git_blank_diff (log_command $"main" $"/repo") sample_log.
Proof.
  repeat split; try (exists 0%Z, []; reflexivity). discriminate.
Qed.

Lemma git_sample_decoded : decoded_process git_sample.
Proof.
  intros c. unfold git_sample, git_answer.
  destruct (argv c) as [|a [|b [|d [|e [|f r]]]]];
    try destruct (Py.eqb b $"log"); try destruct (Py.eqb d $"--stat");
    unfold sample_diff, sample_stat, sample_names, sample_log, wf_str;
    repeat first [ apply lit_wf
                 | apply Forall_app; split
                 | apply Forall_cons; [left; reflexivity|]
                 | apply Forall_nil ].
Qed.

(** Without git the first command fails and the error text comes back. *)
Lemma spawn_failure_without_git :
  analyze_file_changes git_missing None $"/repo" $"main" true 500 None []
    = (Ok (dumps None
             (error_doc $"[Errno 2] No such file or directory: 'git'")),
       [] ++ firstn 1 (four_commands $"main" $"/repo")).
Proof.
  exact (proj1 (spawn_failure_becomes_error_text git_missing None $"/repo"
                  $"main" true 500 None [])
               $"[Errno 2] No such file or directory: 'git'" eq_refl).
Defined.

(** The sample branch with the limits 0 and -1. *)
Lemma nonpositive_limit_on_sample :
  (exists report log',
      analyze_file_changes git_sample None $"/repo" $"main" true 0 None []
        = (Ok (dumps (Some 2) report), log') /\
      field $"truncated" report = Some (JString truncation_marker)) /\
  (exists report log',
      analyze_file_changes git_sample None $"/repo" $"main" true (-1) None []
        = (Ok (dumps (Some 2) report), log') /\
      field $"truncated" report
        = Some (JString ($"-old" ++ truncation_marker))).
Proof.
  destruct git_sample_answers as (Hd & Hne & Hs & Hn & Hc). split.
  - destruct (truncated_field_for_nonpositive_limit git_sample None $"/repo"
                $"main" true 0 None [] _ _ _ _ ltac:(lia) Hd Hne Hs Hn Hc)
      as (report & log' & Hrun & _ & Hzero & _).
    exists report, log'. split; [exact Hrun|]. apply Hzero. reflexivity.
  - destruct (truncated_field_for_nonpositive_limit git_sample None $"/repo"
                $"main" true (-1) None [] _ _ _ _ ltac:(lia) Hd Hne Hs Hn Hc)
      as (report & log' & Hrun & _ & _ & Hneg).
    exists report, log'. split; [exact Hrun|].
    rewrite Hneg by lia. reflexivity.
Defined.

(** The sample branch with a limit of one line: two lines come back. *)
Lemma truncated_lines_on_sample :
  exists report log' text,
    analyze_file_changes git_sample None $"/repo" $"main" true 1 None []
      = (Ok (dumps (Some 2) report), log') /\
    field $"truncated" report = Some (JString text) /\
    Py.splitlines text = [$"-old"; $"... (truncated)"] /\
    Py.len (Py.splitlines text) = 2%Z.
Proof.
  destruct git_sample_answers as (Hd & Hne & Hs & Hn & Hc).
  exact (truncated_text_has_one_line_more git_sample None $"/repo" $"main"
           true 1 None [] sample_diff sample_stat sample_names sample_log
           ltac:(split; [lia|reflexivity])
           Hd Hne Hs Hn Hc).
Defined.

Lemma stripped_texts_on_sample :
  exists report log' statistics history shown,
    analyze_file_changes git_sample None $"/repo" $"main" true 500 None []
      = (Ok (dumps (Some 2) report), log') /\
    field $"statistics" report = Some (JString statistics) /\
    stripped statistics /\
    field $"commits" report = Some (JString history) /\
    stripped history /\
    field $"diff" report = Some (JString shown) /\
    stripped shown.
Proof.
  destruct git_sample_answers as (Hd & Hne & Hs & Hn & Hc).
  exact (report_texts_are_stripped git_sample None $"/repo" $"main" true 500
           None [] _ _ _ _ Hd Hne Hs Hn Hc).
Defined.

Lemma files_changed_on_sample_not_empty :
  exists report log',
    analyze_file_changes git_sample None $"/repo" $"main" true 500 None []
      = (Ok (dumps (Some 2) report), log') /\
    (field $"files_changed" report = Some (JArray []) <-> blank sample_names).
Proof.
  destruct git_sample_answers as (Hd & Hne & Hs & Hn & Hc).
  exact (files_changed_empty_iff_blank git_sample None $"/repo" $"main" true
           500 None [] _ _ _ _ Hd Hne Hs Hn Hc).
Defined.

Lemma blank_diff_report :
  blank [Py.LF] /\
  exists report log' lines,
    analyze_file_changes git_blank_diff None $"/repo" $"main" true 500 None []
      = (Ok (dumps (Some 2) report), log') /\
    keys report = report_keys /\
    field $"diff" report = Some (JString []) /\
    field $"total_diff_lines" report = Some (JInt lines) /\
    (1 <= lines)%Z.
Proof.
  assert (Hb : blank [Py.LF]) by (repeat constructor).
  split; [exact Hb|].
  destruct git_blank_diff_answers as (Hd & Hne & Hs & Hn & Hc).
  exact (blank_diff_still_gives_a_report git_blank_diff None $"/repo" $"main"
           500 None [] _ _ _ _ Hb Hd Hne Hs Hn Hc).
Defined.

Lemma sample_run_parses_back :
  decoded_process git_sample /\ wf_str $"main" /\
  exists text doc log',
    analyze_file_changes git_sample None $"/repo" $"main" true 500 None []
      = (Ok text, log') /\
    (text = dumps None doc \/ text = dumps (Some 2) doc) /\
    loads text = Some doc.
Proof.
  split; [exact git_sample_decoded|]. split; [apply lit_wf|].
  exact (analyze_text_parses_back git_sample None $"/repo" $"main" true 500
           None [] git_sample_decoded (lit_wf "main")).
Defined.

(** The store without [docs.md]: the third file of the table fails. *)
Lemma missing_docs_raises :
  get_pr_templates store_without_docs
    = Raise (Exception $"No such file or directory") /\
  suggest_template store_without_docs Py.ascii_lower $"Fixes a crash" $"fix"
    = Raise (Exception $"No such file or directory").
Proof.
  apply (first_unreadable_file_raises store_without_docs Py.ascii_lower
           [($"bug.md", $"Bug Fix"); ($"feature.md", $"Feature")]
           $"docs.md" $"Documentation"
           [($"refactor.md", $"Refactor"); ($"test.md", $"Test");
            ($"performance.md", $"Performance");
            ($"security.md", $"Security")]).
  - reflexivity.
  - intros f [<- | [<- | []]]; eexists; reflexivity.
  - reflexivity.
Defined.

Lemma content_fields_agree_on_sample_store :
  exists text doc selected content,
    suggest_template sample_store Py.ascii_lower $"Fixes a crash" $"fix"
      = Ok text /\
    text = dumps (Some 2) doc /\
    field $"recommended_template" doc = Some selected /\
    field $"content" selected = Some content /\
    field $"template_content" doc = Some content.
Proof.
  destruct (suggest_template_provisioned sample_store Py.ascii_lower
              $"Fixes a crash" $"fix" sample_store_provisioned
              sample_store_decoded) as (ty & c & _ & _ & Hs).
  destruct (template_content_is_the_record_content sample_store
              Py.ascii_lower _ _ _ Hs)
    as (doc & selected & content & Hdump & _ & H1 & H2 & H3).
  eexists. exists doc, selected, content. split; [exact Hs|].
  repeat split; assumption.
Defined.

Lemma resolved_record_on_sample_store :
  exists doc template_type content,
    suggest_template sample_store Py.ascii_lower $"Fixes a crash" $"Cleanup"
      = Ok (dumps (Some 2) doc) /\
    In ($"refactor.md", template_type) DEFAULT_TEMPLATES /\
    sample_store $"refactor.md" = Ok content /\
    field $"recommended_template" doc
      = Some (template_record $"refactor.md" template_type content) /\
    field $"template_content" doc = Some (JString content).
Proof.
  exact (recommendation_is_the_resolved_record sample_store Py.ascii_lower
           $"Fixes a crash" $"Cleanup" sample_store_provisioned
           sample_store_decoded).
Defined.

Lemma sample_listing_parses_back :
  exists text records,
    get_pr_templates sample_store = Ok text /\
    loads text = Some (JArray records) /\
    Forall2 (record_of sample_store) DEFAULT_TEMPLATES records.
Proof.
  exact (listing_parses_back sample_store sample_store_provisioned
           sample_store_decoded).
Defined.

Lemma sample_recommendation_parses_back :
  exists text doc,
    suggest_template sample_store Py.ascii_lower $"Fixes a crash" $"fix"
      = Ok text /\
    text = dumps (Some 2) doc /\
    keys doc = suggestion_keys /\
    loads text = Some doc.
Proof.
  exact (recommendation_parses_back sample_store Py.ascii_lower
           $"Fixes a crash" $"fix" sample_store_provisioned
           sample_store_decoded (lit_wf _) (lit_wf _)).
Defined.

Lemma upper_case_fix_on_sample_store :
  exists doc_a doc_b,
    suggest_template sample_store Py.ascii_lower $"Fixes a crash" $"FIX"
      = Ok (dumps (Some 2) doc_a) /\
    suggest_template sample_store Py.ascii_lower $"Fixes a crash" $"fix"
      = Ok (dumps (Some 2) doc_b) /\
    field $"recommended_template" doc_a = field $"recommended_template" doc_b /\
    field $"template_content" doc_a = field $"template_content" doc_b.
Proof.
  apply (category_case_is_ignored sample_store Py.ascii_lower
           $"Fixes a crash" $"FIX" $"fix" ascii_lower_lowers_ascii).
  - repeat constructor.
  - repeat constructor.
  - reflexivity.
  - exact sample_store_provisioned.
  - exact sample_store_decoded.
Defined.

Lemma security_template_is_recommended :
  exists change_type doc content,
    In change_type (map fst TYPE_MAPPING) /\
    suggest_template sample_store Py.ascii_lower $"Fixes a crash" change_type
      = Ok (dumps (Some 2) doc) /\
    sample_store $"security.md" = Ok content /\
    field $"recommended_template" doc
      = Some (template_record $"security.md" $"Security" content).
Proof.
  apply (every_template_is_recommended sample_store Py.ascii_lower
           $"Fixes a crash" ($"security.md", $"Security")
           ascii_lower_lowers_ascii sample_store_provisioned
           sample_store_decoded).
  cbn. tauto.
Defined.
